(** * libapi: standard JSON response envelopes for HTTP services

    A shallow embedding of the Go package [response] (re-exported as [v1])
    of github.com/nofendian17/libapi, with the small parts of the Go
    standard library it leans on: [context] (value contexts),
    [encoding/json] (struct tags, [omitempty], compact text) and [net/http]
    (the [ResponseWriter] interface, the [httptest] recorder and the server's
    own response writer).

    Conventions.
    - Go [int] is [Z]; the library never computes with it.
    - Go [string] is [string], a sequence of bytes that need not be
      well-formed UTF-8 ([validUTF8] tells when it is); [[]byte] is [bytes],
      a list of 8-bit characters.
    - A Go pointer [*T] is [option T]: [None] is [nil]. Nothing in the
      library writes through a pointer it was given, so identity is not
      tracked.
    - A Go slice is a [list]; the [nil] slice and the empty slice are both
      [[]] (the library only looks at their length, through [omitempty]).
    - A Go [error] result is [option error]: [None] is [nil].
    - A call that may panic returns an [Outcome]. *)

From Stdlib Require Import ZArith String Ascii List Lia DecimalPos DecimalZ DecimalFacts.
From stdpp Require Import base option list strings gmap.

Local Open Scope Z_scope.

(** ** Go runtime: errors and panics *)

Inductive error : Type :=
  | UnsupportedTypeError (ty : string)   (* encoding/json *)
  | ErrBodyNotAllowed                    (* net/http *)
  | errorString (msg : string).          (* errors.New(msg): any other error *)

Inductive Outcome (A : Type) : Type :=
  | Done (a : A)
  | Panic (msg : string).
Arguments Done {A} a.
Arguments Panic {A} msg.

(** Sequencing: a panic unwinds through the rest of the function body.
    With this instance [x ← m; k] is Go's statement sequence. *)
#[global] Instance Outcome_bind : MBind Outcome := fun A B k m =>
  match m with
  | Done a => k a
  | Panic msg => Panic msg
  end.

(** ** JSON values *)

#[local] Unset Elimination Schemes.

Inductive json : Type :=
  | JNull
  | JBool (b : bool)
  | JNum (n : Z)
  | JStr (s : string)
  | JArr (items : list json)
  | JObj (members : list (string * json)).

Definition keys (j : json) : list string :=
  match j with
  | JObj members => members.*1
  | _ => []
  end.

(** ** The response model: error.go and response.go *)

(** [ValidationError]: its fields are [Field] and [Message]; the second is
    spelled [FieldMessage] here because [APIError] has a [Message] too. *)
Record ValidationError : Type := mkValidationError {
  Field : string;          (* `json:"field"` *)
  FieldMessage : string    (* `json:"message"` *)
}.

Record APIError : Type := mkAPIError {
  HTTPStatus : Z;                    (* `json:"-"` *)
  Code : string;                     (* `json:"code"` *)
  Message : string;                  (* `json:"message"` *)
  Details : list ValidationError     (* `json:"details,omitempty"` *)
}.

Record Metadata : Type := mkMetadata {
  Page : Z;          (* `json:"page,omitempty"` *)
  PerPage : Z;       (* `json:"per_page,omitempty"` *)
  TotalItems : Z     (* `json:"total_items,omitempty"` *)
}.

(** [APIResponse], with the type of its [Data any] field left open so that
    the universe of Go values below can contain envelopes. *)
Record APIResponseOf (any : Type) : Type := mkAPIResponse {
  Status : string;              (* `json:"status"` *)
  TraceID : string;             (* `json:"trace_id,omitempty"` *)
  Data : any;                   (* `json:"data,omitempty"` *)
  Error : option APIError;      (* `json:"error,omitempty"` *)
  Meta : option Metadata        (* `json:"meta,omitempty"` *)
}.
Arguments mkAPIResponse {any}.
Arguments Status {any}.
Arguments TraceID {any}.
Arguments Data {any}.
Arguments Error {any}.
Arguments Meta {any}.

(** The Go values a handler passes as [any]: the [nil] interface, a typed
    [nil] (a nil pointer, slice or map inside a non-nil interface), scalars,
    [[]any], [map[string]any] (as an association list; a Go map has unique
    keys), values with no JSON form (channels and functions), and the
    envelope itself, by value or through a non-nil pointer. *)
Inductive GoValue : Type :=
  | VNil
  | VTypedNil
  | VBool (b : bool)
  | VInt (n : Z)
  | VString (s : string)
  | VSlice (items : list GoValue)
  | VMap (entries : list (string * GoValue))
  | VChan
  | VFunc
  | VEnvelope (r : APIResponseOf GoValue).

#[local] Set Elimination Schemes.

Definition APIResponse : Type := APIResponseOf GoValue.

Definition StatusSuccess : string := "success".
Definition StatusError : string := "error".

Definition StatusSwitchingProtocols : Z := 101.
Definition StatusOK : Z := 200.
Definition StatusNoContent : Z := 204.
Definition StatusUnprocessableEntity : Z := 422.

(** The zero value [APIResponse{}]. *)
Definition zeroAPIResponse : APIResponse :=
  mkAPIResponse "" "" VNil None None.

Definition NewSuccessResponse (data : GoValue) (meta : option Metadata) : APIResponse :=
  {| Status := StatusSuccess;
     TraceID := "";
     Data := data;
     Error := None;
     Meta := meta |}.

Definition NewErrorResponse (httpStatus : Z) (code : string) (message : string) : APIResponse :=
  {| Status := StatusError;
     TraceID := "";
     Data := VNil;
     Error := Some {| HTTPStatus := httpStatus;
                      Code := code;
                      Message := message;
                      Details := [] |};
     Meta := None |}.

Definition NewValidationErrorResponse (details : list ValidationError) : APIResponse :=
  {| Status := StatusError;
     TraceID := "";
     Data := VNil;
     Error := Some {| HTTPStatus := StatusUnprocessableEntity;
                      Code := "VALIDATION_FAILED";
                      Message := "Data yang dikirim tidak valid.";
                      Details := details |};
     Meta := None |}.

(** ** encoding/json, first half: from Go values to JSON values

    What [json.Marshal] does by reflection, written out for the types
    above. Struct fields are emitted in declaration order under the name in
    their tag; a field tagged [omitempty] is left out when it is empty
    (a zero number, an empty string, a [nil] pointer or interface, a slice of
    length zero); the tag ["-"] always leaves the field out. *)

Definition marshalValidationError (v : ValidationError) : json :=
  JObj [("field", JStr (Field v)); ("message", JStr (FieldMessage v))].

Definition marshalAPIError (e : APIError) : json :=
  JObj ([("code", JStr (Code e)); ("message", JStr (Message e))]
        ++ (if decide (Details e = [])
            then []
            else [("details", JArr (marshalValidationError <$> Details e))])).

Definition marshalMetadata (m : Metadata) : json :=
  JObj ((if decide (Page m = 0) then [] else [("page", JNum (Page m))])
        ++ (if decide (PerPage m = 0) then [] else [("per_page", JNum (PerPage m))])
        ++ (if decide (TotalItems m = 0) then [] else [("total_items", JNum (TotalItems m))])).

(** The interface-typed field [Data] is empty only when it is the [nil]
    interface; any value inside it, even a typed nil, is emitted. *)
Definition isNilInterface (v : GoValue) : bool :=
  match v with
  | VNil => true
  | _ => false
  end.

(** Map keys are written in sorted order (bytewise). *)
Fixpoint insertByKey {A} (kv : string * A) (l : list (string * A)) : list (string * A) :=
  match l with
  | [] => [kv]
  | kv' :: l' =>
      if String.leb kv.1 kv'.1 then kv :: l else kv' :: insertByKey kv l'
  end.

Definition sortByKey {A} (l : list (string * A)) : list (string * A) :=
  foldr insertByKey [] l.

(** The first error met while walking the elements in order. *)
Fixpoint collect {A} (l : list (error + A)) : error + list A :=
  match l with
  | [] => inr []
  | inl e :: _ => inl e
  | inr a :: l' =>
      match collect l' with
      | inl e => inl e
      | inr l'' => inr (a :: l'')
      end
  end.

Definition collectMembers {A} (l : list (string * (error + A))) : error + list (string * A) :=
  collect ((fun kv => match kv.2 with inl e => inl e | inr a => inr (kv.1, a) end) <$> l).

(** [Marshal v] is [inr j] when [v] has the JSON form [j] and [inl err]
    when the encoder gives up. *)
Fixpoint Marshal (v : GoValue) : error + json :=
  match v with
  | VNil => inr JNull
  | VTypedNil => inr JNull
  | VBool b => inr (JBool b)
  | VInt n => inr (JNum n)
  | VString s => inr (JStr s)
  | VSlice items =>
      match collect (map Marshal items) with
      | inl e => inl e
      | inr js => inr (JArr js)
      end
  | VMap entries =>
      match collectMembers (sortByKey (map (fun kv => (kv.1, Marshal kv.2)) entries)) with
      | inl e => inl e
      | inr ms => inr (JObj ms)
      end
  | VChan => inl (UnsupportedTypeError "chan")
  | VFunc => inl (UnsupportedTypeError "func")
  | VEnvelope r =>
      match (if isNilInterface (Data r) then inr [] else
               match Marshal (Data r) with
               | inl e => inl e
               | inr j => inr [("data", j)]
               end) with
      | inl e => inl e
      | inr data =>
          inr (JObj ([("status", JStr (Status r))]
                     ++ (if decide (TraceID r = "") then [] else [("trace_id", JStr (TraceID r))])
                     ++ data
                     ++ match Error r with
                        | None => []
                        | Some e => [("error", marshalAPIError e)]
                        end
                     ++ match Meta r with
                        | None => []
                        | Some m => [("meta", marshalMetadata m)]
                        end))
      end
  end.

(** Serializing an envelope: what [json.Marshal(resp)] returns. *)
Definition marshalAPIResponse (r : APIResponse) : error + json :=
  Marshal (VEnvelope r).

(** ** encoding/json, second half: JSON text

    [render] is the compact text the encoder writes, with HTML escaping on,
    the encoder's default, as Go 1.22 escapes (earlier versions write
    backspace and form feed as [\u0008] and [\u000c], which read back the
    same). A string is walked rune by rune as [utf8.DecodeRuneInString]
    does: a well-formed sequence is copied, except U+2028 and U+2029, which
    are escaped; a byte that starts no well-formed sequence is written as
    the escape of U+FFFD.

    [Unmarshal] reads JSON text as [json.Unmarshal] does into a value of
    type [any]: white space is skipped, escapes are decoded, ill-formed
    UTF-8 is coerced to U+FFFD, a number goes through [float64], and of two
    members with the same key the later one is kept. Its result is given as a
    JSON value: an object as the list of its members in the order of the
    text, where Go has a map, and a number as the integer the [float64]
    holds. Text nested deeper than the decoder's limit of 10000 is refused,
    as Go refuses it. Numbers are integer literals; one with a fraction or
    an exponent is refused although Go reads it, floating point being
    outside the model: a result [Some] is Go's result, a result [None] is an
    error in Go for every text without such a literal. *)

Definition bytes : Type := list ascii.

Definition bytes_of (s : string) : bytes := list_ascii_of_string s.

Local Open Scope char_scope.

(** [const hex = "0123456789abcdef"] *)
Definition hex : bytes := bytes_of "0123456789abcdef".

Definition hexDigit (n : N) : ascii := nth (N.to_nat n) hex "0".

(** [htmlSafeSet[b]], for [b < utf8.RuneSelf]: printable, and none of
    the five characters below. *)
Definition htmlSafe (c : ascii) : bool :=
  let n := N_of_ascii c in
  (32 <=? n)%N && (n <? 128)%N
  && negb (Ascii.eqb c "034") && negb (Ascii.eqb c "\")
  && negb (Ascii.eqb c "&") && negb (Ascii.eqb c "<") && negb (Ascii.eqb c ">").

(** The escape of a byte below [utf8.RuneSelf]. *)
Definition escapeByte (c : ascii) : bytes :=
  let n := N_of_ascii c in
  if htmlSafe c then [c]
  else if Ascii.eqb c "\" || Ascii.eqb c "034" then ["\"; c]
  else if (n =? 8)%N then ["\"; "b"]
  else if (n =? 12)%N then ["\"; "f"]
  else if (n =? 10)%N then ["\"; "n"]
  else if (n =? 13)%N then ["\"; "r"]
  else if (n =? 9)%N then ["\"; "t"]
  else ["\"; "u"; "0"; "0"; hexDigit (N.shiftr n 4); hexDigit (N.land n 15)].

(** UTF-8, as [unicode/utf8] accepts it: the shortest form only, no
    surrogates, nothing above U+10FFFF. *)
Definition between (lo hi : N) (c : ascii) : bool :=
  (lo <=? N_of_ascii c)%N && (N_of_ascii c <=? hi)%N.

Definition continuation (c : ascii) : bool := between 128 191 c.

Definition valid2 (b0 b1 : ascii) : bool :=
  between 194 223 b0 && continuation b1.

Definition valid3 (b0 b1 b2 : ascii) : bool :=
  ((between 224 224 b0 && between 160 191 b1)
   || ((between 225 236 b0 || between 238 239 b0) && continuation b1)
   || (between 237 237 b0 && between 128 159 b1))
  && continuation b2.

Definition valid4 (b0 b1 b2 b3 : ascii) : bool :=
  ((between 240 240 b0 && between 144 191 b1)
   || (between 241 243 b0 && continuation b1)
   || (between 244 244 b0 && between 128 143 b1))
  && continuation b2 && continuation b3.

(** U+2028 and U+2029, in UTF-8. *)
Definition lineSeparator (b0 b1 b2 : ascii) : bool :=
  between 226 226 b0 && between 128 128 b1 && between 168 169 b2.

(** The escape of [utf8.RuneError], U+FFFD. *)
Definition replacementEscape : bytes := ["\"; "u"; "f"; "f"; "f"; "d"].

Fixpoint escapeString (s : string) : bytes :=
  match s with
  | EmptyString => []
  | String b0 s1 =>
      if (N_of_ascii b0 <? 128)%N then escapeByte b0 ++ escapeString s1
      else
        match s1 with
        | String b1 s2 =>
            if valid2 b0 b1 then b0 :: b1 :: escapeString s2
            else
              match s2 with
              | String b2 s3 =>
                  if valid3 b0 b1 b2 then
                    (if lineSeparator b0 b1 b2
                     then ["\"; "u"; "2"; "0"; "2"; hexDigit (N.land (N_of_ascii b2) 15)]
                     else [b0; b1; b2]) ++ escapeString s3
                  else
                    match s3 with
                    | String b3 s4 =>
                        if valid4 b0 b1 b2 b3
                        then b0 :: b1 :: b2 :: b3 :: escapeString s4
                        else replacementEscape ++ escapeString s1
                    | EmptyString => replacementEscape ++ escapeString s1
                    end
              | EmptyString => replacementEscape ++ escapeString s1
              end
        | EmptyString => replacementEscape ++ escapeString s1
        end
  end.

(** A string that holds well-formed UTF-8, [utf8.ValidString]. *)
Fixpoint validUTF8 (s : string) : bool :=
  match s with
  | EmptyString => true
  | String b0 s1 =>
      if (N_of_ascii b0 <? 128)%N then validUTF8 s1
      else
        match s1 with
        | String b1 s2 =>
            if valid2 b0 b1 then validUTF8 s2
            else
              match s2 with
              | String b2 s3 =>
                  if valid3 b0 b1 b2 then validUTF8 s3
                  else
                    match s3 with
                    | String b3 s4 => valid4 b0 b1 b2 b3 && validUTF8 s4
                    | EmptyString => false
                    end
              | EmptyString => false
              end
        | EmptyString => false
        end
  end.

Definition renderString (s : string) : bytes :=
  "034" :: escapeString s ++ ["034"].

Fixpoint renderUint (u : Decimal.uint) : bytes :=
  match u with
  | Decimal.Nil => []
  | Decimal.D0 u' => "0" :: renderUint u'
  | Decimal.D1 u' => "1" :: renderUint u'
  | Decimal.D2 u' => "2" :: renderUint u'
  | Decimal.D3 u' => "3" :: renderUint u'
  | Decimal.D4 u' => "4" :: renderUint u'
  | Decimal.D5 u' => "5" :: renderUint u'
  | Decimal.D6 u' => "6" :: renderUint u'
  | Decimal.D7 u' => "7" :: renderUint u'
  | Decimal.D8 u' => "8" :: renderUint u'
  | Decimal.D9 u' => "9" :: renderUint u'
  end.

(** [strconv.AppendInt(b, n, 10)] *)
Definition renderInt (n : Z) : bytes :=
  match Z.to_int n with
  | Decimal.Pos u => renderUint u
  | Decimal.Neg u => "-" :: renderUint u
  end.

Fixpoint render (j : json) : bytes :=
  match j with
  | JNull => bytes_of "null"
  | JBool true => bytes_of "true"
  | JBool false => bytes_of "false"
  | JNum n => renderInt n
  | JStr s => renderString s
  | JArr items =>
      "[" :: (fix renderItems (l : list json) : bytes :=
                match l with
                | [] => []
                | [x] => render x
                | x :: l' => render x ++ "," :: renderItems l'
                end) items ++ ["]"]
  | JObj members =>
      "{" :: (fix renderMembers (l : list (string * json)) : bytes :=
                match l with
                | [] => []
                | [kv] => renderString kv.1 ++ ":" :: render kv.2
                | kv :: l' => renderString kv.1 ++ ":" :: render kv.2 ++ "," :: renderMembers l'
                end) members ++ ["}"]
  end.

(** Reading JSON text. *)

Definition isSpace (c : ascii) : bool :=
  Ascii.eqb c " " || Ascii.eqb c "009" || Ascii.eqb c "010" || Ascii.eqb c "013".

Fixpoint skipSpace (s : bytes) : bytes :=
  match s with
  | c :: s' => if isSpace c then skipSpace s' else s
  | [] => []
  end.

Definition digitOf (c : ascii) : option (Decimal.uint -> Decimal.uint) :=
  if Ascii.eqb c "0" then Some Decimal.D0
  else if Ascii.eqb c "1" then Some Decimal.D1
  else if Ascii.eqb c "2" then Some Decimal.D2
  else if Ascii.eqb c "3" then Some Decimal.D3
  else if Ascii.eqb c "4" then Some Decimal.D4
  else if Ascii.eqb c "5" then Some Decimal.D5
  else if Ascii.eqb c "6" then Some Decimal.D6
  else if Ascii.eqb c "7" then Some Decimal.D7
  else if Ascii.eqb c "8" then Some Decimal.D8
  else if Ascii.eqb c "9" then Some Decimal.D9
  else None.

Fixpoint parseUint (s : bytes) : Decimal.uint * bytes :=
  match s with
  | [] => (Decimal.Nil, [])
  | c :: s' =>
      match digitOf c with
      | Some d => let '(u, rest) := parseUint s' in (d u, rest)
      | None => (Decimal.Nil, s)
      end
  end.

(** The byte after an integer literal: a fraction or an exponent would make
    it a floating-point literal, which this reader refuses. *)
Definition endsInt (s : bytes) : bool :=
  match s with
  | [] => true
  | c :: _ => negb (Ascii.eqb c "." || Ascii.eqb c "e" || Ascii.eqb c "E")
  end.

(** The digits of an integer literal: at least one, and no zero in front
    of another digit. *)
Definition parseDigits (s : bytes) : option (Decimal.uint * bytes) :=
  match parseUint s with
  | (Decimal.Nil, _) => None
  | (Decimal.D0 (Decimal.Nil) as u, rest) => if endsInt rest then Some (u, rest) else None
  | (Decimal.D0 _, _) => None
  | (u, rest) => if endsInt rest then Some (u, rest) else None
  end.

Definition parseInt (s : bytes) : option (Z * bytes) :=
  match s with
  | "-" :: s' => '(u, rest) ← parseDigits s'; Some (Z.of_int (Decimal.Neg u), rest)
  | _ => '(u, rest) ← parseDigits s; Some (Z.of_int (Decimal.Pos u), rest)
  end.

Definition hexValue (c : ascii) : option N :=
  let n := N_of_ascii c in
  if (48 <=? n)%N && (n <=? 57)%N then Some (n - 48)%N
  else if (97 <=? n)%N && (n <=? 102)%N then Some (n - 87)%N
  else if (65 <=? n)%N && (n <=? 70)%N then Some (n - 55)%N
  else None.

Definition hex4 (a b c d : ascii) : option N :=
  a ← hexValue a; b ← hexValue b; c ← hexValue c; d ← hexValue d;
  Some (a * 4096 + b * 256 + c * 16 + d)%N.

Definition unescape (c : ascii) : option ascii :=
  if Ascii.eqb c "034" then Some "034"
  else if Ascii.eqb c "\" then Some "\"
  else if Ascii.eqb c "/" then Some "/"
  else if Ascii.eqb c "b" then Some "008"
  else if Ascii.eqb c "f" then Some "012"
  else if Ascii.eqb c "n" then Some "010"
  else if Ascii.eqb c "r" then Some "013"
  else if Ascii.eqb c "t" then Some "009"
  else None.

Definition consChar (c : ascii) (p : string * bytes) : string * bytes :=
  (String c p.1, p.2).

Definition consChars (l : list ascii) (p : string * bytes) : string * bytes :=
  (foldr String p.1 l, p.2).

(** [utf8.EncodeRune], for a code point that is not a surrogate. *)
Definition encodeRune (r : N) : list ascii :=
  if (r <? 128)%N then [ascii_of_N r]
  else if (r <? 2048)%N then
    [ascii_of_N (192 + r / 64); ascii_of_N (128 + r mod 64)]
  else if (r <? 65536)%N then
    [ascii_of_N (224 + r / 4096); ascii_of_N (128 + (r / 64) mod 64);
     ascii_of_N (128 + r mod 64)]
  else
    [ascii_of_N (240 + r / 262144); ascii_of_N (128 + (r / 4096) mod 64);
     ascii_of_N (128 + (r / 64) mod 64); ascii_of_N (128 + r mod 64)].

(** U+FFFD in UTF-8. *)
Definition replacementChar : list ascii := ["239"; "191"; "189"].

(** The text after an opening quote, up to and including the closing one:
    [unquote]. An escape [\u] gives the UTF-8 of its code point, two of
    them that form a surrogate pair the UTF-8 of the pair's code point, a
    surrogate on its own U+FFFD; bytes from 0x80 up are copied when they
    form a well-formed sequence and are replaced by U+FFFD, one byte at a
    time, when they do not. *)
Fixpoint parseString (s : bytes) : option (string * bytes) :=
  match s with
  | [] => None
  | c :: s' =>
      if (128 <=? N_of_ascii c)%N then
        match s' with
        | b1 :: s2 =>
            if valid2 c b1 then consChars [c; b1] <$> parseString s2
            else
              match s2 with
              | b2 :: s3 =>
                  if valid3 c b1 b2 then consChars [c; b1; b2] <$> parseString s3
                  else
                    match s3 with
                    | b3 :: s4 =>
                        if valid4 c b1 b2 b3
                        then consChars [c; b1; b2; b3] <$> parseString s4
                        else consChars replacementChar <$> parseString s'
                    | [] => consChars replacementChar <$> parseString s'
                    end
              | [] => consChars replacementChar <$> parseString s'
              end
        | [] => None
        end
      else if Ascii.eqb c "034" then Some (EmptyString, s')
      else if Ascii.eqb c "\" then
        match s' with
        | [] => None
        | e :: s'' =>
            if Ascii.eqb e "u" then
              match s'' with
              | h1 :: h2 :: h3 :: h4 :: s3 =>
                  match hex4 h1 h2 h3 h4 with
                  | None => None
                  | Some u1 =>
                      if (55296 <=? u1)%N && (u1 <=? 57343)%N then
                        match s3 with
                        | e1 :: e2 :: l1 :: l2 :: l3 :: l4 :: s4 =>
                            match (if Ascii.eqb e1 "\" && Ascii.eqb e2 "u" && (u1 <? 56320)%N
                                   then hex4 l1 l2 l3 l4 else None) with
                            | Some u2 =>
                                if (56320 <=? u2)%N && (u2 <=? 57343)%N
                                then consChars
                                       (encodeRune (65536 + (u1 - 55296) * 1024
                                                    + (u2 - 56320)))
                                       <$> parseString s4
                                else consChars replacementChar <$> parseString s3
                            | None => consChars replacementChar <$> parseString s3
                            end
                        | _ => consChars replacementChar <$> parseString s3
                        end
                      else consChars (encodeRune u1) <$> parseString s3
                  end
              | _ => None
              end
            else
              match unescape e with
              | Some ch => consChar ch <$> parseString s''
              | None => None
              end
        end
      else if (N_of_ascii c <? 32)%N then None
      else consChar c <$> parseString s'
  end.

(** [expect lit s] strips the literal [lit] from the front of [s]. *)
Fixpoint expect (lit : bytes) (s : bytes) : option bytes :=
  match lit with
  | [] => Some s
  | c :: lit' =>
      match s with
      | c' :: s' => if Ascii.eqb c c' then expect lit' s' else None
      | [] => None
      end
  end.

Definition startsWith (c : ascii) (s : bytes) : bool :=
  match s with
  | c' :: _ => Ascii.eqb c c'
  | [] => false
  end.

Fixpoint parseValue (fuel : nat) (s : bytes) : option (json * bytes) :=
  match fuel with
  | O => None
  | S fuel' =>
      match skipSpace s with
      | [] => None
      | c :: s' =>
          if Ascii.eqb c "n" then rest ← expect (bytes_of "ull") s'; Some (JNull, rest)
          else if Ascii.eqb c "t" then rest ← expect (bytes_of "rue") s'; Some (JBool true, rest)
          else if Ascii.eqb c "f" then rest ← expect (bytes_of "alse") s'; Some (JBool false, rest)
          else if Ascii.eqb c "034" then '(str, rest) ← parseString s'; Some (JStr str, rest)
          else if Ascii.eqb c "[" then
            if startsWith "]" (skipSpace s')
            then Some (JArr [], tail (skipSpace s'))
            else '(items, rest) ← parseItems fuel' s'; Some (JArr items, rest)
          else if Ascii.eqb c "{" then
            if startsWith "}" (skipSpace s')
            then Some (JObj [], tail (skipSpace s'))
            else '(members, rest) ← parseMembers fuel' s'; Some (JObj members, rest)
          else '(n, rest) ← parseInt (c :: s'); Some (JNum n, rest)
      end
  end
with parseItems (fuel : nat) (s : bytes) : option (list json * bytes) :=
  match fuel with
  | O => None
  | S fuel' =>
      '(j, rest) ← parseValue fuel' s;
      match skipSpace rest with
      | c :: rest' =>
          if Ascii.eqb c "," then '(js, rest'') ← parseItems fuel' rest'; Some (j :: js, rest'')
          else if Ascii.eqb c "]" then Some ([j], rest')
          else None
      | [] => None
      end
  end
with parseMembers (fuel : nat) (s : bytes) : option (list (string * json) * bytes) :=
  match fuel with
  | O => None
  | S fuel' =>
      match skipSpace s with
      | q :: s' =>
          if Ascii.eqb q "034" then
            '(k, rest) ← parseString s';
            match skipSpace rest with
            | colon :: rest' =>
                if Ascii.eqb colon ":" then
                  '(j, rest'') ← parseValue fuel' rest';
                  match skipSpace rest'' with
                  | c :: rest''' =>
                      if Ascii.eqb c ","
                      then '(ms, rest4) ← parseMembers fuel' rest'''; Some ((k, j) :: ms, rest4)
                      else if Ascii.eqb c "}" then Some ([(k, j)], rest''')
                      else None
                  | [] => None
                  end
                else None
            | [] => None
            end
          else None
      | [] => None
      end
  end.

(** The integer a [float64] holds after [strconv.ParseFloat] of an integer
    literal: the literal itself up to 2^53, beyond that the nearest multiple
    of the spacing, ties to the even one; a literal that rounds to 2^1024 or
    more is out of range. *)
Definition roundFloat64 (n : Z) : option Z :=
  let a := Z.abs n in
  if (a <=? 2 ^ 53)%Z then Some n
  else
    let e := Z.log2 a - 52 in
    let q := Z.shiftr a e in
    let r := a - Z.shiftl q e in
    let half := Z.shiftl 1 (e - 1) in
    let q' := if (half <? r)%Z || ((r =? half)%Z && Z.odd q) then q + 1 else q in
    let v := Z.shiftl q' e in
    if (2 ^ 1024 <=? v)%Z then None else Some (Z.sgn n * v).

(** Storing a member in a map: a later member replaces an earlier one with
    the same key. *)
Definition addMember (kv : string * json) (later : list (string * json))
  : list (string * json) :=
  if bool_decide (kv.1 ∈ later.*1) then later else kv :: later.

Definition lastWins (members : list (string * json)) : list (string * json) :=
  foldr addMember [] members.

(** What decoding into [any] makes of a value that was read. *)
Fixpoint decodeAny (j : json) : option json :=
  match j with
  | JNum n => JNum <$> roundFloat64 n
  | JArr items => JArr <$> mapM decodeAny items
  | JObj members =>
      (fun ms => JObj (lastWins ms))
        <$> mapM (fun kv => pair kv.1 <$> decodeAny kv.2) members
  | _ => Some j
  end.

(** How deep arrays and objects are nested. *)
Fixpoint jdepth (j : json) : N :=
  match j with
  | JArr items => N.succ (foldr (fun x d => N.max (jdepth x) d) 0%N items)
  | JObj members => N.succ (foldr (fun kv d => N.max (jdepth kv.2) d) 0%N members)
  | _ => 0%N
  end.

(** The decoder's [maxNestingDepth]. *)
Definition maxNestingDepth : N := 10000.

(** [json.Unmarshal(data, &v)] for [v] of type [any]: one value, nested no
    deeper than the decoder allows, then nothing but white space. The length
    of the text is fuel enough. *)
Definition Unmarshal (data : bytes) : option json :=
  match parseValue (length data) data with
  | Some (j, rest) =>
      match skipSpace rest with
      | [] => if (jdepth j <=? maxNestingDepth)%N then decodeAny j else None
      | _ => None
      end
  | None => None
  end.

(** The two loops inside [render], named so that they can be reasoned
    about on their own. *)
Definition renderItems : list json -> bytes :=
  fix renderItems (l : list json) : bytes :=
    match l with
    | [] => []
    | [x] => render x
    | x :: l' => render x ++ "," :: renderItems l'
    end.

Definition renderMembers : list (string * json) -> bytes :=
  fix renderMembers (l : list (string * json)) : bytes :=
    match l with
    | [] => []
    | [kv] => renderString kv.1 ++ ":" :: render kv.2
    | kv :: l' => renderString kv.1 ++ ":" :: render kv.2 ++ "," :: renderMembers l'
    end.

(** What can follow a value in the encoder's output: a comma, a closing
    bracket or brace, the newline [Encode] appends, or the end. *)
Definition delimited (s : bytes) : bool :=
  match s with
  | [] => true
  | c :: _ => Ascii.eqb c "," || Ascii.eqb c "]" || Ascii.eqb c "}" || Ascii.eqb c "010"
  end.

(** The first byte of a rendered value. *)
Definition valueStart (c : ascii) : bool :=
  Ascii.eqb c "n" || Ascii.eqb c "t" || Ascii.eqb c "f" || Ascii.eqb c "034"
  || Ascii.eqb c "[" || Ascii.eqb c "{" || Ascii.eqb c "-"
  || bool_decide (is_Some (digitOf c)).

(** A bound on the fuel [parseValue] needs to read a value back. *)
Fixpoint jsize (j : json) : nat :=
  match j with
  | JArr items => S (sum_list_with (fun x => S (jsize x)) items)
  | JObj members => S (sum_list_with (fun kv => S (jsize kv.2)) members)
  | _ => 1
  end.

(** Every string of a value, member names included, is well-formed
    UTF-8. *)
Fixpoint validText (j : json) : bool :=
  match j with
  | JStr s => validUTF8 s
  | JArr items => forallb validText items
  | JObj members => forallb (fun kv => validUTF8 kv.1 && validText kv.2) members
  | _ => true
  end.

(** A value that decoding into [any] leaves as it is: every integer is
    within 2^53 in magnitude, where a [float64] holds each one exactly, and
    no object has two members with the same name (a Go map or struct never
    gives two). *)
Fixpoint exactAny (j : json) : bool :=
  match j with
  | JNum n => (Z.abs n <=? 2 ^ 53)%Z
  | JArr items => forallb exactAny items
  | JObj members =>
      forallb (fun kv => exactAny kv.2) members && bool_decide (NoDup members.*1)
  | _ => true
  end.

(** A value that comes back from its text unchanged: well-formed strings,
    exact numbers, and nesting within the decoder's limit. *)
Definition portable (j : json) : bool :=
  validText j && exactAny j && (jdepth j <=? maxNestingDepth)%N.

Local Close Scope char_scope.

(** ** context: value contexts

    A [context.Context] is an interface value: [None] is the [nil]
    interface, [Some c] one of the implementations of the standard library.
    Keys are compared with [==]; [traceIDKey] is this package's unexported
    key type, [otherKey] stands for the keys of every other package. *)

Inductive Key : Type :=
  | traceIDKey
  | otherKey (name : string).

#[global] Instance Key_eq_dec : EqDecision Key.
Proof. solve_decision. Defined.

Inductive ctx : Type :=
  | emptyCtx                                          (* Background(), TODO() *)
  | valueCtx (parent : ctx) (key : Key) (val : GoValue)   (* WithValue *)
  | cancelCtx (parent : ctx).                         (* WithCancel, WithTimeout, WithDeadline *)

Definition Context : Type := option ctx.

Definition Background : Context := Some emptyCtx.

(** [c.Value(key)]: the value bound by the nearest enclosing [WithValue]
    for that key, the [nil] interface when there is none. *)
Fixpoint Value (c : ctx) (key : Key) : GoValue :=
  match c with
  | emptyCtx => VNil
  | valueCtx parent k val => if decide (k = key) then val else Value parent key
  | cancelCtx parent => Value parent key
  end.

(** [context.WithValue] refuses a [nil] parent. *)
Definition WithValue (parent : Context) (key : Key) (val : GoValue) : Outcome Context :=
  match parent with
  | None => Panic "cannot create context from nil parent"
  | Some p => Done (Some (valueCtx p key val))
  end.

(** The type assertion [v.(string)] in its two-result form. *)
Definition assertString (v : GoValue) : string * bool :=
  match v with
  | VString s => (s, true)
  | _ => ("", false)
  end.

Definition setTraceID (traceID : string) (resp : APIResponse) : APIResponse :=
  {| Status := Status resp;
     TraceID := traceID;
     Data := Data resp;
     Error := Error resp;
     Meta := Meta resp |}.

(** A method call on an interface value: on the [nil] interface it is a
    nil dereference. *)
Definition Context_Value (ctx : Context) (key : Key) : Outcome GoValue :=
  match ctx with
  | None => Panic "invalid memory address or nil pointer dereference"
  | Some c => Done (Value c key)
  end.

(** [NewAPIResponse] returns a pointer to a fresh envelope; the envelope it
    points to is what is modelled. *)
Definition NewAPIResponse (ctx : Context) : Outcome APIResponse :=
  let resp := zeroAPIResponse in
  if bool_decide (ctx <> None) then
    v ← Context_Value ctx traceIDKey;
    let '(traceID, ok) := assertString v in
    if ok then Done (setTraceID traceID resp) else Done resp
  else Done resp.

Definition WithTraceID (ctx : Context) (traceID : string) : Outcome Context :=
  WithValue ctx traceIDKey (VString traceID).

(** A trace id is attached to a context when some [WithValue] on the way to
    the root binds [traceIDKey]. *)
Fixpoint hasTraceID (c : ctx) : bool :=
  match c with
  | emptyCtx => false
  | valueCtx parent k _ => bool_decide (k = traceIDKey) || hasTraceID parent
  | cancelCtx parent => hasTraceID parent
  end.

(** ** net/http: headers and response writers *)

Module http.

(** [http.Header] is a [textproto.MIMEHeader], a [map[string][]string].
    Keys are taken in canonical form, as ["Content-Type"] is. *)
Abbreviation MIMEHeader := (gmap string (list string)).

Definition Set_ (h : MIMEHeader) (key value : string) : MIMEHeader :=
  <[key := [value]]> h.

Definition Get (h : MIMEHeader) (key : string) : string :=
  match h !! key with
  | Some (v :: _) => v
  | _ => ""
  end.

(** The interface [http.ResponseWriter]. [Header] reads the header map
    the writer holds; the map is shared with the caller, so a change made
    through it is a change of the writer: [putHeader]. [Write] returns
    the writer after the call and the error it reports. *)
Class ResponseWriter (W : Type) : Type := {
  Header : W -> MIMEHeader;
  putHeader : MIMEHeader -> W -> W;
  WriteHeader : Z -> W -> Outcome W;
  Write : bytes -> W -> Outcome (W * option error)
}.

(** [checkWriteHeaderCode]: a status code has three digits. *)
Definition checkWriteHeaderCode (code : Z) : Outcome unit :=
  if decide (code < 100 \/ code > 999)
  then Panic ("invalid WriteHeader code " +:+ string_of_list_ascii (renderInt code))
  else Done tt.

Definition bodyAllowedForStatus (status : Z) : bool :=
  if decide (100 <= status <= 199) then false
  else if decide (status = 204) then false
  else if decide (status = 304) then false
  else true.

(** The server's own writer, [*http.response] (informational responses as
    handled since Go 1.19), on a connection that is open and not hijacked,
    with no Content-Length declared by the handler. [reqMethod] is the
    method of the request being answered. [status] is the status code of
    the status line; [cwHeader] is the copy [WriteHeader] takes of the
    handler's header map, [cw.header], from which the header block is built
    later: it is not the block that is sent, which for a status code that
    allows no body leaves some of these headers out. [informational] lists
    the 1xx responses sent before the status line; [body] is what is sent
    after the header block. *)
Record response : Type := mkResponse {
  reqMethod : string;
  handlerHeader : MIMEHeader;
  wroteHeader : bool;
  status : Z;
  cwHeader : option MIMEHeader;
  informational : list Z;
  body : bytes
}.

(** The writer a handler is called with, for a GET request. *)
Definition newResponse : response :=
  {| reqMethod := "GET"; handlerHeader := ∅; wroteHeader := false; status := 0;
     cwHeader := None; informational := []; body := [] |}.

Definition response_WriteHeader (code : Z) (w : response) : Outcome response :=
  if wroteHeader w then Done w
  else
    _ ← checkWriteHeaderCode code;
    if decide (100 <= code <= 199 /\ code <> StatusSwitchingProtocols)
    then Done {| reqMethod := reqMethod w;
                 handlerHeader := handlerHeader w; wroteHeader := false;
                 status := status w; cwHeader := cwHeader w;
                 informational := informational w ++ [code];
                 body := body w |}
    else Done {| reqMethod := reqMethod w;
                 handlerHeader := handlerHeader w; wroteHeader := true;
                 status := code; cwHeader := Some (handlerHeader w);
                 informational := informational w;
                 body := body w |}.

(** A write with a status code that allows no body is refused; the answer
    to a HEAD request accepts the write and sends none of it. *)
Definition response_Write (data : bytes) (w : response)
  : Outcome (response * option error) :=
  w ← (if wroteHeader w then Done w else response_WriteHeader StatusOK w);
  if decide (length data = 0%nat) then Done (w, None)
  else if negb (bodyAllowedForStatus (status w)) then Done (w, Some ErrBodyNotAllowed)
  else if String.eqb (reqMethod w) "HEAD" then Done (w, None)
  else Done ({| reqMethod := reqMethod w;
                handlerHeader := handlerHeader w; wroteHeader := wroteHeader w;
                status := status w; cwHeader := cwHeader w;
                informational := informational w;
                body := body w ++ data |}, None).

#[global] Instance response_ResponseWriter : ResponseWriter response := {|
  Header := handlerHeader;
  putHeader h w := {| reqMethod := reqMethod w;
                      handlerHeader := h; wroteHeader := wroteHeader w;
                      status := status w; cwHeader := cwHeader w;
                      informational := informational w;
                      body := body w |};
  WriteHeader := response_WriteHeader;
  Write := response_Write
|}.

End http.

(** ** net/http/httptest: the recorder the tests use *)

Module httptest.

(** [Code], [HeaderMap] and [Body] are what a test reads; [snapHeader] is
    the copy of the headers taken when the status code is written, which
    [Result] reports. [Body] is the content of the buffer [NewRecorder]
    allocates; a recorder built by hand with a nil buffer, which records no
    body, is not modelled. *)
Record ResponseRecorder : Type := mkResponseRecorder {
  Code : Z;
  HeaderMap : http.MIMEHeader;
  Body : bytes;
  snapHeader : option http.MIMEHeader;
  wroteHeader : bool
}.

Definition NewRecorder : ResponseRecorder :=
  {| Code := 200; HeaderMap := ∅; Body := [];
     snapHeader := None; wroteHeader := false |}.

Definition recorder_WriteHeader (code : Z) (rw : ResponseRecorder)
  : Outcome ResponseRecorder :=
  if wroteHeader rw then Done rw
  else
    _ ← http.checkWriteHeaderCode code;
    Done {| Code := code; HeaderMap := HeaderMap rw; Body := Body rw;
            snapHeader := Some (HeaderMap rw); wroteHeader := true |}.

Section Recorder.

(** [http.DetectContentType], the content sniffer; only a [Write] that
    comes before any [WriteHeader] consults it. *)
Variable DetectContentType : bytes -> string.

Definition recorder_writeHeader (b : bytes) (rw : ResponseRecorder)
  : Outcome ResponseRecorder :=
  if wroteHeader rw then Done rw
  else
    let m := HeaderMap rw in
    let m := if decide (is_Some (m !! "Content-Type")) then m
             else if decide (http.Get m "Transfer-Encoding" = "")
                  then http.Set_ m "Content-Type" (DetectContentType b)
                  else m in
    recorder_WriteHeader 200
      {| Code := Code rw; HeaderMap := m; Body := Body rw;
         snapHeader := snapHeader rw; wroteHeader := wroteHeader rw |}.

(** The write is recorded even when the status code allows no body; the
    error then says so. *)
Definition recorder_Write (buf : bytes) (rw : ResponseRecorder)
  : Outcome (ResponseRecorder * option error) :=
  rw ← recorder_writeHeader buf rw;
  let rw := {| Code := Code rw; HeaderMap := HeaderMap rw; Body := Body rw ++ buf;
               snapHeader := snapHeader rw; wroteHeader := wroteHeader rw |} in
  if http.bodyAllowedForStatus (Code rw)
  then Done (rw, None)
  else Done (rw, Some ErrBodyNotAllowed).

#[global] Instance recorder_ResponseWriter : http.ResponseWriter ResponseRecorder := {|
  http.Header := HeaderMap;
  http.putHeader h rw := {| Code := Code rw; HeaderMap := h; Body := Body rw;
                            snapHeader := snapHeader rw;
                            wroteHeader := wroteHeader rw |};
  http.WriteHeader := recorder_WriteHeader;
  http.Write := recorder_Write
|}.

End Recorder.

End httptest.

(** ** helpers.go: the transport helper *)

(** [json.NewEncoder(w).Encode(payload)]: the value is marshalled first; a
    failure there is returned before anything is written. Otherwise the text
    and a newline go to the writer in one [Write], whose error is the
    result. *)
Definition Encode {W} {RW : http.ResponseWriter W} (w : W) (payload : GoValue)
  : Outcome (W * option error) :=
  match Marshal payload with
  | inl err => Done (w, Some err)
  | inr j => http.Write (render j ++ ["010"%char]) w
  end.

Definition RespondJSON {W} {RW : http.ResponseWriter W}
    (w : W) (statusCode : Z) (payload : GoValue) : Outcome (W * option error) :=
  let w := http.putHeader (http.Set_ (http.Header w) "Content-Type" "application/json") w in
  w ← http.WriteHeader statusCode w;
  Encode w payload.

(** ** v1/helpers.go: the re-exports *)

Module v1.

Definition RespondJSON {W} {RW : http.ResponseWriter W}
    (w : W) (statusCode : Z) (payload : GoValue) : Outcome (W * option error) :=
  RespondJSON w statusCode payload.

Definition NewSuccessResponse (data : GoValue) (meta : option Metadata) : APIResponse :=
  NewSuccessResponse data meta.

Definition NewErrorResponse (httpStatus : Z) (code : string) (message : string) : APIResponse :=
  NewErrorResponse httpStatus code message.

Definition NewValidationErrorResponse (details : list ValidationError) : APIResponse :=
  NewValidationErrorResponse details.

End v1.

(** The writer as [RespondJSON] leaves it before the status code is
    written. *)
Definition withContentType {W} {RW : http.ResponseWriter W} (w : W) : W :=
  http.putHeader (http.Set_ (http.Header w) "Content-Type" "application/json") w.

(** A call of the transport helper that returns a failure indication. *)
Definition returnsError {W} (o : Outcome (W * option error)) : Prop :=
  exists w err, o = Done (w, Some err).


(** Digits as [strconv] writes them: at least one, and a zero in front
    only when it is the only one. *)
Definition canonical (u : Decimal.uint) : Prop :=
  match u with
  | Decimal.Nil => False
  | Decimal.D0 Decimal.Nil => True
  | Decimal.D0 _ => False
  | _ => True
  end.

Definition readsBack (j : json) : Prop :=
  forall fuel rest, (jsize j <= fuel)%nat -> delimited rest = true ->
    parseValue fuel (render j ++ rest) = Some (j, rest).

(** The envelopes the three builders can return. *)
Inductive Built : APIResponse -> Prop :=
  | Built_success data meta : Built (NewSuccessResponse data meta)
  | Built_error httpStatus code message : Built (NewErrorResponse httpStatus code message)
  | Built_validation details : Built (NewValidationErrorResponse details).

(** A field of the envelope is populated when it is not the zero value of
    its type: [Data] when it is not the [nil] interface, [Error] when the
    pointer is not [nil]. *)
Definition dataPopulated (r : APIResponse) : bool := negb (isNilInterface (Data r)).
Definition errorPopulated (r : APIResponse) : bool := bool_decide (is_Some (Error r)).

(** A context that carries a trace id; the [nil] context carries none. *)
Definition attached (ctx : Context) : bool :=
  match ctx with
  | None => false
  | Some c => hasTraceID c
  end.

(** ** More of net/http and encoding/json used by the callers *)

Definition StatusInternalServerError : Z := 500.

(** [h.Del(key)] *)
Definition Header_Del (h : http.MIMEHeader) (key : string) : http.MIMEHeader :=
  delete key h.

(** [fmt.Fprintln(w, s)]: one [Write] of the text and a newline; the
    callers here drop its result. *)
Definition Fprintln {W} {RW : http.ResponseWriter W} (w : W) (s : string)
  : Outcome (W * option error) :=
  http.Write (bytes_of s ++ ["010"%char]) w.

(** [http.Error(w, error, code)]: plain-text headers, the status code, then
    the message. *)
Definition http_Error {W} {RW : http.ResponseWriter W}
    (w : W) (error : string) (code : Z) : Outcome W :=
  let w := http.putHeader (Header_Del (http.Header w) "Content-Length") w in
  let w := http.putHeader
             (http.Set_ (http.Header w) "Content-Type" "text/plain; charset=utf-8") w in
  let w := http.putHeader
             (http.Set_ (http.Header w) "X-Content-Type-Options" "nosniff") w in
  w ← http.WriteHeader code w;
  '(w, _) ← Fprintln w error;
  Done w.

(** [json.Marshal(v)]: the text and the error; the text is [nil] when there
    is an error. *)
Definition json_Marshal (v : GoValue) : bytes * option error :=
  match Marshal v with
  | inl err => ([], Some err)
  | inr j => (render j, None)
  end.

(** [bytes.Equal(a, b)] *)
Definition bytes_Equal (a b : bytes) : bool := bool_decide (a = b).

(** The test helper [jsonEqual]: both values are marshalled, the errors are
    dropped, and the texts are compared. *)
Definition jsonEqual (a b : GoValue) : bool :=
  let '(aBytes, _) := json_Marshal a in
  let '(bBytes, _) := json_Marshal b in
  bytes_Equal aBytes bBytes.

(** ** example/main.go: the handlers

    A request, as far as the handlers look at it: its context, which
    [r.Context()] never returns as [nil], and its headers. A handler returns
    the writer as it leaves it and the lines it logged. *)

Record Request : Type := mkRequest {
  Request_ctx : ctx;
  Request_Header : http.MIMEHeader
}.

Definition Request_Context (r : Request) : Context := Some (Request_ctx r).

(** A call [log.Printf(format, err)]. *)
Inductive logEntry : Type :=
  | log_Printf (format : string) (err : error).

Definition setStatus (status : string) (resp : APIResponse) : APIResponse :=
  {| Status := status;
     TraceID := TraceID resp;
     Data := Data resp;
     Error := Error resp;
     Meta := Meta resp |}.

Definition setData (data : GoValue) (resp : APIResponse) : APIResponse :=
  {| Status := Status resp;
     TraceID := TraceID resp;
     Data := data;
     Error := Error resp;
     Meta := Meta resp |}.

(** The statement [resp.TraceID = NewAPIResponse(ctx).TraceID]. *)
Definition copyTraceID (ctx : Context) (resp : APIResponse) : Outcome APIResponse :=
  fresh ← NewAPIResponse ctx;
  Done (setTraceID (TraceID fresh) resp).

Module example.

Section Handlers.

Context {W : Type} {RW : http.ResponseWriter W}.

Definition successHandler (w : W) (r : Request) : Outcome (W * list logEntry) :=
  ctx ← WithTraceID (Request_Context r) "trace-123";
  let data := VMap [("message", VString "Operation successful");
                    ("user", VMap [("id", VString "123");
                                   ("name", VString "John Doe")])] in
  apiResp ← NewAPIResponse ctx;
  let apiResp := setStatus StatusSuccess apiResp in
  let apiResp := setData data apiResp in
  '(w, err) ← v1.RespondJSON w StatusOK (VEnvelope apiResp);
  match err with
  | Some e =>
      w ← http_Error w "Internal server error" StatusInternalServerError;
      Done (w, [log_Printf "Failed to write response: %v" e])
  | None => Done (w, [])
  end.

(** [simulateError] always returns [nil]. *)
Definition simulateError : option error := None.

(** The body of [errorHandler], for a given result of [simulateError].
    [r.Header.Get] looks the key up in its canonical form. *)
Definition errorHandlerOn (err : option error) (w : W) (r : Request)
  : Outcome (W * list logEntry) :=
  match err with
  | Some _ =>
      let resp := v1.NewErrorResponse StatusInternalServerError
                    "INTERNAL_ERROR" "Database connection failed" in
      let traceID := http.Get (Request_Header r) "X-Trace-Id" in
      resp ← (if decide (traceID <> "")
              then ctx ← WithTraceID (Request_Context r) traceID;
                   copyTraceID ctx resp
              else Done resp);
      '(w, _) ← v1.RespondJSON w StatusInternalServerError (VEnvelope resp);
      Done (w, [])
  | None =>
      let resp := v1.NewSuccessResponse (VMap [("status", VString "ok")]) None in
      '(w, _) ← v1.RespondJSON w StatusOK (VEnvelope resp);
      Done (w, [])
  end.

Definition errorHandler (w : W) (r : Request) : Outcome (W * list logEntry) :=
  errorHandlerOn simulateError w r.

Definition validationHandler (w : W) (r : Request) : Outcome (W * list logEntry) :=
  let details := [ {| Field := "email"; FieldMessage := "Must be a valid email address" |};
                   {| Field := "password";
                      FieldMessage := "Must be at least 8 characters long" |};
                   {| Field := "age"; FieldMessage := "Must be a positive number" |} ] in
  let resp := v1.NewValidationErrorResponse details in
  ctx ← WithTraceID (Request_Context r) "validation-trace-456";
  resp ← copyTraceID ctx resp;
  '(w, _) ← v1.RespondJSON w StatusUnprocessableEntity (VEnvelope resp);
  Done (w, []).

Definition paginatedHandler (w : W) (r : Request) : Outcome (W * list logEntry) :=
  let items := VSlice
    [ VMap [("id", VInt 1); ("name", VString "Item 1");
            ("description", VString "First item")];
      VMap [("id", VInt 2); ("name", VString "Item 2");
            ("description", VString "Second item")];
      VMap [("id", VInt 3); ("name", VString "Item 3");
            ("description", VString "Third item")] ] in
  let meta := Some {| Page := 1; PerPage := 10; TotalItems := 25 |} in
  let resp := v1.NewSuccessResponse items meta in
  ctx ← WithTraceID (Request_Context r) "pagination-trace-789";
  resp ← copyTraceID ctx resp;
  '(w, _) ← v1.RespondJSON w StatusOK (VEnvelope resp);
  Done (w, []).

End Handlers.

End example.

(** * Properties *)

(** ** The builders *)

(** C3. For every payload and every metadata pointer, [nil] included, the
    envelope built by [NewSuccessResponse] has the success status, no error,
    the given data and the given metadata. *)
Theorem NewSuccessResponse_spec (data : GoValue) (meta : option Metadata) :
  Status (NewSuccessResponse data meta) = StatusSuccess
  /\ Error (NewSuccessResponse data meta) = None
  /\ Data (NewSuccessResponse data meta) = data
  /\ Meta (NewSuccessResponse data meta) = meta.
Proof. unfold NewSuccessResponse; cbn. repeat split. Qed.

(** C4. For every status code, code and message, the envelope built by
    [NewErrorResponse] has the error status, no data, and an error detail
    holding exactly the three arguments and no validation details. *)
Theorem NewErrorResponse_spec (httpStatus : Z) (code message : string) :
  Status (NewErrorResponse httpStatus code message) = StatusError
  /\ Data (NewErrorResponse httpStatus code message) = VNil
  /\ HTTPStatus <$> Error (NewErrorResponse httpStatus code message) = Some httpStatus
  /\ Code <$> Error (NewErrorResponse httpStatus code message) = Some code
  /\ Message <$> Error (NewErrorResponse httpStatus code message) = Some message
  /\ Details <$> Error (NewErrorResponse httpStatus code message) = Some [].
Proof. unfold NewErrorResponse; cbn. repeat split. Qed.

(** C2. For every sequence of validation errors, the empty one included,
    the envelope built by [NewValidationErrorResponse] has the error status,
    no data, HTTP status 422, the code VALIDATION_FAILED, one fixed message,
    and the given details: the same length and the same element at every
    index. *)
Theorem NewValidationErrorResponse_spec (details : list ValidationError) :
  Status (NewValidationErrorResponse details) = StatusError
  /\ Data (NewValidationErrorResponse details) = VNil
  /\ exists e, Error (NewValidationErrorResponse details) = Some e
     /\ HTTPStatus e = 422
     /\ Code e = "VALIDATION_FAILED"
     /\ Message e = "Data yang dikirim tidak valid."
     /\ Details e = details
     /\ length (Details e) = length details
     /\ forall i : nat, Details e !! i = details !! i.
Proof.
  split; [reflexivity|]. split; [reflexivity|].
  eexists; split; [reflexivity|]. cbn. repeat split.
Qed.

(** C5. No envelope returned by a builder has both its data and its error
    populated: the success builder never sets the error, and the two error
    builders set the error and never the data. *)
Theorem builders_exclusive (r : APIResponse) :
  Built r ->
  dataPopulated r && errorPopulated r = false
  /\ (Status r = StatusSuccess -> errorPopulated r = false)
  /\ (Status r = StatusError -> dataPopulated r = false /\ errorPopulated r = true).
Proof.
  intros [data meta | httpStatus code message | details]; cbn.
  - rewrite andb_false_r. split; [reflexivity|]. split; [reflexivity|].
    intros H; cbv in H; discriminate H.
  - split; [reflexivity|]. split; [intros H; cbv in H; discriminate H|].
    intros _; split; reflexivity.
  - split; [reflexivity|]. split; [intros H; cbv in H; discriminate H|].
    intros _; split; reflexivity.
Qed.

Lemma builders_exclusive_witness :
  dataPopulated (NewSuccessResponse (VString "ok") None)
    && errorPopulated (NewSuccessResponse (VString "ok") None) = false
  /\ dataPopulated (NewValidationErrorResponse [mkValidationError "email" "bad"])
    && errorPopulated (NewValidationErrorResponse [mkValidationError "email" "bad"]) = false.
Proof.
  split.
  - exact (proj1 (builders_exclusive _ (Built_success (VString "ok") None))).
  - exact (proj1 (builders_exclusive _
                    (Built_validation [mkValidationError "email" "bad"]))).
Defined.

(** ** Trace propagation *)

Lemma Value_no_trace (c : ctx) :
  hasTraceID c = false -> Value c traceIDKey = VNil.
Proof.
  induction c as [| parent IH key val | parent IH]; cbn; intros H.
  - reflexivity.
  - apply orb_false_elim in H as [Hk Hp].
    apply bool_decide_eq_false in Hk.
    destruct (decide (key = traceIDKey)) as [Heq | _]; [contradiction|].
    apply IH, Hp.
  - apply IH, H.
Qed.

Lemma NewAPIResponse_no_trace (ctx : Context) :
  attached ctx = false -> NewAPIResponse ctx = Done zeroAPIResponse.
Proof.
  destruct ctx as [c|]; cbn; intros H; [|reflexivity].
  unfold NewAPIResponse. cbn. rewrite (Value_no_trace c H). reflexivity.
Qed.

(** C6, as stated, fails on the [nil] context: [context.WithValue] panics on
    a [nil] parent, so there is no context to read the trace id back from. *)
Lemma WithTraceID_nil_context :
  WithTraceID None "trace-123" = Panic "cannot create context from nil parent"
  /\ (WithTraceID None "trace-123" ≫= NewAPIResponse)
     = Panic "cannot create context from nil parent"
  /\ ~ exists resp, (WithTraceID None "trace-123" ≫= NewAPIResponse) = Done resp
                    /\ TraceID resp = "trace-123".
Proof.
  split; [reflexivity|]. split; [reflexivity|].
  intros [resp [H _]]. discriminate H.
Qed.

(** C6, amended. For every context other than [nil] and every string [T],
    [NewAPIResponse] after [WithTraceID] returns an envelope whose trace id
    is [T]; and for every context with no trace id attached, [nil] included,
    [NewAPIResponse] returns, without a panic, an envelope whose trace id is
    empty. *)
Theorem trace_id_round_trip (parent : ctx) (T : string) (bare : Context) :
  attached bare = false ->
  (exists resp, (WithTraceID (Some parent) T ≫= NewAPIResponse) = Done resp
                /\ TraceID resp = T)
  /\ (exists resp, NewAPIResponse bare = Done resp /\ TraceID resp = "").
Proof.
  intros Hbare. split.
  - exists (setTraceID T zeroAPIResponse). split; [|reflexivity].
    cbn. unfold NewAPIResponse. cbn.
    destruct (decide (traceIDKey = traceIDKey)) as [_ | Hne]; [reflexivity|].
    contradiction Hne; reflexivity.
  - rewrite (NewAPIResponse_no_trace bare Hbare). eexists. split; reflexivity.
Qed.

Lemma trace_id_round_trip_witness :
  (exists resp,
     (WithTraceID (Some (valueCtx emptyCtx traceIDKey (VString "old"))) "test-trace-id"
        ≫= NewAPIResponse) = Done resp
     /\ TraceID resp = "test-trace-id")
  /\ (exists resp,
        NewAPIResponse (Some (cancelCtx (valueCtx emptyCtx (otherKey "user") (VInt 7))))
        = Done resp
        /\ TraceID resp = "").
Proof.
  apply (trace_id_round_trip
           (valueCtx emptyCtx traceIDKey (VString "old")) "test-trace-id"
           (Some (cancelCtx (valueCtx emptyCtx (otherKey "user") (VInt 7))))).
  reflexivity.
Defined.

(** C10. [NewAPIResponse] on the [nil] context does not panic: it returns
    the zero envelope, empty trace id and every other field unset, which is
    also what it returns for any context that carries no trace id. *)
Theorem NewAPIResponse_nil_context (c : ctx) :
  hasTraceID c = false ->
  NewAPIResponse None = Done (mkAPIResponse "" "" VNil None None)
  /\ NewAPIResponse (Some c) = NewAPIResponse None.
Proof.
  intros H. split; [reflexivity|].
  apply (NewAPIResponse_no_trace (Some c)), H.
Qed.

Lemma NewAPIResponse_nil_context_witness :
  NewAPIResponse None = Done (mkAPIResponse "" "" VNil None None)
  /\ NewAPIResponse Background = NewAPIResponse None.
Proof. apply (NewAPIResponse_nil_context emptyCtx). reflexivity. Defined.

(** ** Serialized shape *)

Ltac member_of_keys :=
  cbn; rewrite ?elem_of_cons, ?elem_of_nil;
  first [ tauto | intuition discriminate | intuition congruence ].

(** C8, as stated, fails for two kinds of payload. Data with no JSON form,
    a channel for one, makes serialization fail: no object is yielded. Data
    that is the nil interface is itself left out, being an omitempty field:
    the object has the key status alone. *)
Lemma omission_rule_not_every_payload :
  marshalAPIResponse (mkAPIResponse "success" "" VChan None None)
  = inl (UnsupportedTypeError "chan")
  /\ marshalAPIResponse (mkAPIResponse "success" "" VNil None None)
     = inr (JObj [("status", JStr "success")])
  /\ ~ (forall data, exists j,
          marshalAPIResponse (mkAPIResponse "success" "" data None None) = inr j)
  /\ ~ (forall data j,
          marshalAPIResponse (mkAPIResponse "success" "" data None None) = inr j ->
          "data" ∈ keys j).
Proof.
  split; [reflexivity|]. split; [reflexivity|]. split.
  - intros H. destruct (H VChan) as [j Hj]. discriminate Hj.
  - intros H. specialize (H VNil _ eq_refl). cbn in H.
    rewrite elem_of_cons, elem_of_nil in H. destruct H as [H | []]. discriminate H.
Qed.

(** C8, amended. Take an envelope whose trace_id is empty and whose error
    and meta are absent. When its data has no JSON form, serialization fails
    with the data's error. When its data has one, serialization yields an
    object whose keys are exactly status and data, in that order, with the
    data's JSON value under data; except that data equal to the nil
    interface is left out as well, so that the only key is status. In no
    case does trace_id, error or meta appear, not even with null. *)
Theorem omission_rule (st : string) (data : GoValue) :
  match Marshal data with
  | inl err => marshalAPIResponse (mkAPIResponse st "" data None None) = inl err
  | inr jd =>
      exists j, marshalAPIResponse (mkAPIResponse st "" data None None) = inr j
        /\ j = JObj (("status", JStr st)
                     :: match data with VNil => [] | _ => [("data", jd)] end)
        /\ keys j = match data with VNil => ["status"] | _ => ["status"; "data"] end
        /\ ("trace_id" ∉ keys j) /\ ("error" ∉ keys j) /\ ("meta" ∉ keys j)
  end.
Proof.
  unfold marshalAPIResponse. cbn [Marshal Data Status TraceID Error Meta].
  rewrite decide_True by reflexivity.
  destruct data; cbn [isNilInterface app];
    try (destruct (Marshal _) as [err | jd]; [reflexivity|]);
    (eexists; split; [reflexivity|]; split; [reflexivity|]; split; [reflexivity|]);
    repeat split; member_of_keys.
Qed.

Lemma omission_rule_witness :
  exists j, marshalAPIResponse (mkAPIResponse "success" "" (VMap [("id", VInt 7)]) None None)
            = inr j
    /\ j = JObj [("status", JStr "success"); ("data", JObj [("id", JNum 7)])]
    /\ keys j = ["status"; "data"]
    /\ ("trace_id" ∉ keys j) /\ ("error" ∉ keys j) /\ ("meta" ∉ keys j).
Proof.
  exact (omission_rule "success" (VMap [("id", VInt 7)])).
Defined.

(** C9. In the serialized form of a [Metadata] value each of page, per_page
    and total_items is present exactly when its value is not zero: the
    output is the three members in order, without those whose value is 0. *)
Theorem Metadata_zero_omitted (m : Metadata) :
  ("page" ∈ keys (marshalMetadata m) <-> Page m <> 0)
  /\ ("per_page" ∈ keys (marshalMetadata m) <-> PerPage m <> 0)
  /\ ("total_items" ∈ keys (marshalMetadata m) <-> TotalItems m <> 0)
  /\ marshalMetadata m
     = JObj (prod_map id JNum <$>
               filter (fun kv => kv.2 <> 0)
                 [("page", Page m); ("per_page", PerPage m);
                  ("total_items", TotalItems m)]).
Proof.
  destruct m as [p pp ti]. unfold marshalMetadata; cbn [Page PerPage TotalItems].
  destruct (decide (p = 0)) as [-> | Hp], (decide (pp = 0)) as [-> | Hpp],
    (decide (ti = 0)) as [-> | Hti]; cbn [app].
  all: split; [member_of_keys|]; (split; [member_of_keys|]); (split; [member_of_keys|]).
  all: rewrite ?filter_cons, ?filter_nil; cbn [snd].
  all: repeat case_decide; first [reflexivity | congruence].
Qed.

(** ** JSON text: reading back what was rendered *)

Local Open Scope char_scope.

(** Induction on JSON values, through the lists of an array and an object. *)
Lemma json_ind (P : json -> Prop) :
  P JNull ->
  (forall b, P (JBool b)) ->
  (forall n, P (JNum n)) ->
  (forall s, P (JStr s)) ->
  (forall items, Forall P items -> P (JArr items)) ->
  (forall members, Forall (fun kv => P kv.2) members -> P (JObj members)) ->
  forall j, P j.
Proof.
  intros Hnull Hbool Hnum Hstr Harr Hobj.
  fix IH 1. intros [ | b | n | s | items | members].
  - exact Hnull.
  - apply Hbool.
  - apply Hnum.
  - apply Hstr.
  - apply Harr. induction items as [| x items IHitems]; constructor; [apply IH | exact IHitems].
  - apply Hobj. induction members as [| [k v] members IHmembers]; constructor;
      [apply IH | exact IHmembers].
Qed.

Lemma render_JArr items : render (JArr items) = "[" :: renderItems items ++ ["]"].
Proof. reflexivity. Qed.

Lemma render_JObj members : render (JObj members) = "{" :: renderMembers members ++ ["}"].
Proof. reflexivity. Qed.

Lemma parseString_escapeByte (c : ascii) (tl : bytes) :
  (N_of_ascii c <? 128)%N = true ->
  parseString (escapeByte c ++ tl) = consChar c <$> parseString tl.
Proof. destruct c as [[] [] [] [] [] [] [] []]; intros H; try discriminate H; reflexivity. Qed.

Lemma parseString_high (c : ascii) (s' : bytes) :
  (N_of_ascii c <? 128)%N = false ->
  parseString (c :: s') =
  match s' with
  | b1 :: s2 =>
      if valid2 c b1 then consChars [c; b1] <$> parseString s2
      else
        match s2 with
        | b2 :: s3 =>
            if valid3 c b1 b2 then consChars [c; b1; b2] <$> parseString s3
            else
              match s3 with
              | b3 :: s4 =>
                  if valid4 c b1 b2 b3
                  then consChars [c; b1; b2; b3] <$> parseString s4
                  else consChars replacementChar <$> parseString s'
              | [] => consChars replacementChar <$> parseString s'
              end
        | [] => consChars replacementChar <$> parseString s'
        end
  | [] => None
  end.
Proof.
  intros H. apply N.ltb_ge, N.leb_le in H.
  destruct s' as [| b1 s2]; cbn [parseString]; rewrite H; reflexivity.
Qed.

Lemma between_eq (n : N) (c : ascii) : between n n c = true -> c = ascii_of_N n.
Proof.
  unfold between. rewrite andb_true_iff, !N.leb_le. intros [H1 H2].
  rewrite <- (ascii_N_embedding c). f_equal. lia.
Qed.

Lemma lineSeparator_inv (b0 b1 b2 : ascii) :
  lineSeparator b0 b1 b2 = true ->
  b0 = "226" /\ b1 = "128" /\ (b2 = "168" \/ b2 = "169").
Proof.
  unfold lineSeparator. rewrite !andb_true_iff. intros [[H0 H1] H2].
  apply between_eq in H0, H1. split; [exact H0 | split; [exact H1 |]].
  unfold between in H2. rewrite andb_true_iff, !N.leb_le in H2.
  assert (N_of_ascii b2 = 168 \/ N_of_ascii b2 = 169)%N as [H | H] by lia;
    [left | right]; rewrite <- (ascii_N_embedding b2), H; reflexivity.
Qed.

Lemma parseString_escapeString_le (n : nat) :
  forall (s : string) (rest : bytes),
    (String.length s <= n)%nat -> validUTF8 s = true ->
    parseString (escapeString s ++ "034" :: rest) = Some (s, rest).
Proof.
  induction n as [| n IH]; intros s rest Hlen Hvalid.
  { destruct s; [reflexivity | cbn in Hlen; lia]. }
  destruct s as [| b0 s1]; [reflexivity|].
  cbn [escapeString validUTF8] in *. cbn [String.length] in Hlen.
  destruct (N_of_ascii b0 <? 128)%N eqn:Hb0.
  { rewrite <- app_assoc, parseString_escapeByte by exact Hb0.
    rewrite IH by (lia || exact Hvalid). reflexivity. }
  destruct s1 as [| b1 s2]; [discriminate Hvalid|]. cbn [String.length] in Hlen.
  destruct (valid2 b0 b1) eqn:H2.
  { cbn [app]. rewrite parseString_high, H2 by exact Hb0.
    rewrite IH by (lia || exact Hvalid). reflexivity. }
  destruct s2 as [| b2 s3]; [discriminate Hvalid|]. cbn [String.length] in Hlen.
  destruct (valid3 b0 b1 b2) eqn:H3.
  { destruct (lineSeparator b0 b1 b2) eqn:Hsep.
    - apply lineSeparator_inv in Hsep as (-> & -> & [-> | ->]);
        cbn [app]; cbn; rewrite IH by (lia || exact Hvalid); reflexivity.
    - cbn [app]. rewrite parseString_high, H2, H3 by exact Hb0.
      rewrite IH by (lia || exact Hvalid). reflexivity. }
  destruct s3 as [| b3 s4]; [discriminate Hvalid|]. cbn [String.length] in Hlen.
  apply andb_true_iff in Hvalid as [H4 Hvalid]. rewrite H4.
  cbn [app]. rewrite parseString_high, H2, H3, H4 by exact Hb0.
  rewrite IH by (lia || exact Hvalid). reflexivity.
Qed.

Lemma parseString_escapeString (s : string) (rest : bytes) :
  validUTF8 s = true ->
  parseString (escapeString s ++ "034" :: rest) = Some (s, rest).
Proof. apply (parseString_escapeString_le (String.length s)). lia. Qed.

Lemma delimited_no_digit (c : ascii) (rest : bytes) :
  delimited (c :: rest) = true -> digitOf c = None /\ endsInt (c :: rest) = true.
Proof.
  unfold delimited. rewrite !orb_true_iff.
  intros [[[H | H] | H] | H]; apply Ascii.eqb_eq in H; subst c; split; reflexivity.
Qed.

Lemma parseUint_renderUint (u : Decimal.uint) (rest : bytes) :
  delimited rest = true -> parseUint (renderUint u ++ rest) = (u, rest).
Proof.
  intros Hrest.
  induction u as [| u IH | u IH | u IH | u IH | u IH | u IH | u IH | u IH | u IH | u IH];
    cbn [renderUint app parseUint]; try (cbn [digitOf Ascii.eqb Bool.eqb]; rewrite IH; reflexivity).
  destruct rest as [| c rest]; [reflexivity|].
  cbn [parseUint]. destruct (delimited_no_digit c rest Hrest) as [-> _]. reflexivity.
Qed.

Lemma canonical_nonnil (u : Decimal.uint) : canonical u -> u <> Decimal.Nil.
Proof. destruct u; [contradiction | discriminate ..]. Qed.

Lemma parseDigits_renderUint (u : Decimal.uint) (rest : bytes) :
  canonical u -> delimited rest = true ->
  parseDigits (renderUint u ++ rest) = Some (u, rest).
Proof.
  intros Hu Hrest. unfold parseDigits. rewrite parseUint_renderUint by exact Hrest.
  assert (endsInt rest = true) as ->.
  { destruct rest as [| c rest]; [reflexivity|]. apply (delimited_no_digit c rest Hrest). }
  destruct u as [| [] | | | | | | | | |]; try contradiction; reflexivity.
Qed.

Lemma renderUint_head (u : Decimal.uint) :
  u <> Decimal.Nil ->
  exists c tl, renderUint u = c :: tl /\ is_Some (digitOf c).
Proof.
  intros Hu. destruct u; [contradiction | ..]; cbn [renderUint];
    eexists _, _; (split; [reflexivity | eexists; reflexivity]).
Qed.

Lemma to_uint_canonical (p : positive) : canonical (Pos.to_uint p).
Proof.
  pose proof (DecimalPos.Unsigned.to_uint_nonnil p) as Hnil.
  assert (Decimal.unorm (Pos.to_uint p) = Pos.to_uint p) as Hnorm.
  { rewrite <- DecimalPos.Unsigned.to_of, DecimalPos.Unsigned.of_to. reflexivity. }
  destruct (Pos.to_uint p) as [| u | | | | | | | | |] eqn:Hp; try exact I; [contradiction|].
  exfalso. unfold Decimal.unorm in Hnorm. rewrite DecimalFacts.nzhead_D0 in Hnorm.
  destruct (Decimal.nzhead u) eqn:Hu; try discriminate Hnorm.
  - injection Hnorm as <-. pose proof (DecimalPos.Unsigned.of_to p) as Hof.
    rewrite Hp in Hof. discriminate Hof.
  - exact (DecimalFacts.nzhead_nonzero _ _ Hu).
Qed.

Lemma to_int_canonical (n : Z) :
  match Z.to_int n with Decimal.Pos u | Decimal.Neg u => canonical u end.
Proof. destruct n as [| p | p]; cbn; [exact I | apply to_uint_canonical ..]. Qed.

Lemma to_int_nonnil (n : Z) :
  match Z.to_int n with Decimal.Pos u | Decimal.Neg u => u <> Decimal.Nil end.
Proof.
  pose proof (to_int_canonical n) as H.
  destruct (Z.to_int n); apply canonical_nonnil, H.
Qed.

Lemma parseInt_renderInt (n : Z) (rest : bytes) :
  delimited rest = true -> parseInt (renderInt n ++ rest) = Some (n, rest).
Proof.
  intros Hrest. unfold renderInt.
  pose proof (to_int_canonical n) as Hcan. pose proof (DecimalZ.of_to n) as Hn.
  destruct (Z.to_int n) as [u | u].
  - destruct (renderUint_head u (canonical_nonnil u Hcan)) as (c & tl & Hc & Hdig).
    unfold parseInt. rewrite <- Hn.
    assert (Ascii.eqb c "-" = false) as Hminus.
    { apply Ascii.eqb_neq. intros ->. destruct Hdig as [d Hd]. discriminate Hd. }
    rewrite Hc. cbn [app]. 
    replace (match c with "-" => _ | _ => _ end) with
      ('(u0, rest0) ← parseDigits (c :: tl ++ rest); Some (Z.of_int (Decimal.Pos u0), rest0)).
    2:{ destruct c as [[] [] [] [] [] [] [] []]; try reflexivity. discriminate Hminus. }
    change (c :: tl ++ rest) with ((c :: tl) ++ rest). rewrite <- Hc.
    rewrite parseDigits_renderUint by assumption. reflexivity.
  - unfold parseInt. cbn [app]. rewrite parseDigits_renderUint by assumption.
    change (Some (Z.of_int (Decimal.Neg u), rest) = Some (n, rest)).
    rewrite Hn. reflexivity.
Qed.

Lemma renderInt_head (n : Z) :
  exists c tl, renderInt n = c :: tl
    /\ Ascii.eqb c "-" || bool_decide (is_Some (digitOf c)) = true.
Proof.
  unfold renderInt. pose proof (to_int_nonnil n) as Hnil.
  destruct (Z.to_int n) as [u | u].
  - destruct (renderUint_head u Hnil) as (c & tl & -> & Hdig).
    exists c, tl. split; [reflexivity|].
    rewrite (bool_decide_eq_true_2 _ Hdig). apply orb_true_r.
  - eexists _, _. split; reflexivity.
Qed.

Lemma parseValue_int (fuel : nat) (c : ascii) (tl : bytes) :
  Ascii.eqb c "-" || bool_decide (is_Some (digitOf c)) = true ->
  parseValue (S fuel) (c :: tl) = '(n, rest) ← parseInt (c :: tl); Some (JNum n, rest).
Proof.
  destruct c as [[] [] [] [] [] [] [] []]; intros H; try discriminate H; reflexivity.
Qed.

Lemma render_head (j : json) :
  exists c tl, render j = c :: tl /\ valueStart c = true.
Proof.
  destruct j as [ | [] | n | s | items | members]; try (eexists _, _; split; reflexivity).
  destruct (renderInt_head n) as (c & tl & Hc & Hstart).
  exists c, tl. split; [exact Hc|].
  unfold valueStart. apply orb_true_iff in Hstart as [-> | ->];
    rewrite ?orb_true_r; reflexivity.
Qed.

Lemma valueStart_first (c : ascii) (tl : bytes) :
  valueStart c = true ->
  skipSpace (c :: tl) = c :: tl
  /\ startsWith "]" (c :: tl) = false /\ startsWith "}" (c :: tl) = false.
Proof.
  destruct c as [[] [] [] [] [] [] [] []]; intros H; try discriminate H;
    repeat split; reflexivity.
Qed.

Lemma parseValue_S (fuel : nat) (s : bytes) :
  parseValue (S fuel) s =
  match skipSpace s with
  | [] => None
  | c :: s' =>
      if Ascii.eqb c "n" then rest ← expect (bytes_of "ull") s'; Some (JNull, rest)
      else if Ascii.eqb c "t" then rest ← expect (bytes_of "rue") s'; Some (JBool true, rest)
      else if Ascii.eqb c "f" then rest ← expect (bytes_of "alse") s'; Some (JBool false, rest)
      else if Ascii.eqb c "034" then '(str, rest) ← parseString s'; Some (JStr str, rest)
      else if Ascii.eqb c "[" then
        if startsWith "]" (skipSpace s')
        then Some (JArr [], tail (skipSpace s'))
        else '(items, rest) ← parseItems fuel s'; Some (JArr items, rest)
      else if Ascii.eqb c "{" then
        if startsWith "}" (skipSpace s')
        then Some (JObj [], tail (skipSpace s'))
        else '(members, rest) ← parseMembers fuel s'; Some (JObj members, rest)
      else '(n, rest) ← parseInt (c :: s'); Some (JNum n, rest)
  end.
Proof. reflexivity. Qed.

Lemma parseItems_S (fuel : nat) (s : bytes) :
  parseItems (S fuel) s =
  '(j, rest) ← parseValue fuel s;
  match skipSpace rest with
  | c :: rest' =>
      if Ascii.eqb c "," then '(js, rest'') ← parseItems fuel rest'; Some (j :: js, rest'')
      else if Ascii.eqb c "]" then Some ([j], rest')
      else None
  | [] => None
  end.
Proof. reflexivity. Qed.

Lemma parseMembers_S (fuel : nat) (s : bytes) :
  parseMembers (S fuel) s =
  match skipSpace s with
  | q :: s' =>
      if Ascii.eqb q "034" then
        '(k, rest) ← parseString s';
        match skipSpace rest with
        | colon :: rest' =>
            if Ascii.eqb colon ":" then
              '(j, rest'') ← parseValue fuel rest';
              match skipSpace rest'' with
              | c :: rest''' =>
                  if Ascii.eqb c ","
                  then '(ms, rest4) ← parseMembers fuel rest'''; Some ((k, j) :: ms, rest4)
                  else if Ascii.eqb c "}" then Some ([(k, j)], rest''')
                  else None
              | [] => None
              end
            else None
        | [] => None
        end
      else None
  | [] => None
  end.
Proof. reflexivity. Qed.

Lemma parseItems_renderItems (l : list json) :
  Forall readsBack l ->
  forall x fuel rest,
    readsBack x ->
    (sum_list_with (fun y => S (jsize y)) (x :: l) <= fuel)%nat ->
    parseItems fuel (renderItems (x :: l) ++ "]" :: rest) = Some (x :: l, rest).
Proof.
  induction 1 as [| y l Hy Hl IH]; intros x fuel rest Hx Hfuel;
    cbn [sum_list_with] in Hfuel; (destruct fuel as [| fuel]; [lia|]);
    rewrite parseItems_S.
  - cbn [renderItems]. rewrite (Hx fuel ("]" :: rest)) by (reflexivity || lia).
    reflexivity.
  - change (renderItems (x :: y :: l)) with (render x ++ "," :: renderItems (y :: l)).
    rewrite <- app_assoc. cbn [app].
    rewrite (Hx fuel) by (reflexivity || lia).
    cbn [mbind option_bind skipSpace isSpace Ascii.eqb Bool.eqb orb].
    rewrite (IH y fuel rest Hy) by (cbn [sum_list_with]; lia).
    reflexivity.
Qed.

Lemma parseMembers_renderMembers (l : list (string * json)) :
  Forall (fun kv => validUTF8 kv.1 = true /\ readsBack kv.2) l ->
  forall kv fuel rest,
    validUTF8 kv.1 = true /\ readsBack kv.2 ->
    (sum_list_with (fun kv' => S (jsize kv'.2)) (kv :: l) <= fuel)%nat ->
    parseMembers fuel (renderMembers (kv :: l) ++ "}" :: rest) = Some (kv :: l, rest).
Proof.
  induction 1 as [| kv' l Hkv' Hl IH]; intros [k v] fuel rest [Hk Hv] Hfuel;
    cbn [sum_list_with fst snd] in Hfuel, Hk, Hv; (destruct fuel as [| fuel]; [lia|]);
    rewrite parseMembers_S.
  - cbn [renderMembers fst snd]. unfold renderString.
    cbn [app skipSpace isSpace Ascii.eqb Bool.eqb orb].
    rewrite <- !app_assoc. cbn [app].
    rewrite parseString_escapeString by exact Hk.
    cbn [mbind option_bind skipSpace isSpace Ascii.eqb Bool.eqb orb].
    rewrite (Hv fuel ("}" :: rest)) by (reflexivity || lia).
    reflexivity.
  - change (renderMembers ((k, v) :: kv' :: l))
      with (renderString k ++ ":" :: render v ++ "," :: renderMembers (kv' :: l)).
    unfold renderString.
    cbn [app skipSpace isSpace Ascii.eqb Bool.eqb orb].
    rewrite <- !app_assoc. cbn [app].
    rewrite parseString_escapeString by exact Hk.
    cbn [mbind option_bind skipSpace isSpace Ascii.eqb Bool.eqb orb].
    rewrite <- app_assoc. cbn [app].
    rewrite (Hv fuel) by (reflexivity || lia).
    cbn [mbind option_bind skipSpace isSpace Ascii.eqb Bool.eqb orb].
    rewrite (IH kv' fuel rest Hkv') by (cbn [sum_list_with]; lia).
    reflexivity.
Qed.

Lemma renderItems_head (x : json) (l : list json) :
  exists c tl, renderItems (x :: l) = c :: tl /\ valueStart c = true.
Proof.
  destruct (render_head x) as (c & tl & Hc & Hstart).
  destruct l as [| y l].
  - exists c, tl. split; [exact Hc | exact Hstart].
  - exists c, (tl ++ "," :: renderItems (y :: l)). split; [|exact Hstart].
    change (renderItems (x :: y :: l)) with (render x ++ "," :: renderItems (y :: l)).
    rewrite Hc. reflexivity.
Qed.

Lemma renderMembers_head (kv : string * json) (l : list (string * json)) :
  exists tl, renderMembers (kv :: l) = "034" :: tl.
Proof.
  destruct l as [| kv' l]; eexists; cbn [renderMembers]; unfold renderString;
    cbn [app]; reflexivity.
Qed.

Lemma forallb_Forall {A} (f : A -> bool) (l : list A) :
  forallb f l = true -> Forall (fun x => f x = true) l.
Proof.
  induction l as [| x l IH]; [constructor|].
  cbn [forallb]. rewrite andb_true_iff. intros [Hx Hl]. constructor; auto.
Qed.

(** A value whose strings are well-formed is read back from its rendering,
    whatever delimiter follows, given fuel for its size. *)
Lemma parseValue_render (j : json) : validText j = true -> readsBack j.
Proof.
  induction j as [ | b | n | s | items IH | members IH] using json_ind;
    intros Hvalid fuel rest Hfuel Hrest; (destruct fuel as [| fuel]; [cbn in Hfuel; lia|]).
  - reflexivity.
  - destruct b; reflexivity.
  - destruct (renderInt_head n) as (c & tl & Hc & Hstart).
    cbn [render]. rewrite Hc. cbn [app]. rewrite parseValue_int by exact Hstart.
    change (c :: tl ++ rest) with ((c :: tl) ++ rest). rewrite <- Hc.
    rewrite parseInt_renderInt by exact Hrest. reflexivity.
  - rewrite parseValue_S. cbn [render]. unfold renderString.
    cbn [app skipSpace isSpace Ascii.eqb Bool.eqb orb].
    rewrite <- app_assoc. cbn [app].
    rewrite parseString_escapeString by exact Hvalid. reflexivity.
  - rewrite parseValue_S, render_JArr.
    cbn [app skipSpace isSpace Ascii.eqb Bool.eqb orb]. rewrite <- app_assoc. cbn [app].
    cbn [validText] in Hvalid. apply forallb_Forall in Hvalid.
    assert (Forall readsBack items) as Hall.
    { clear Hfuel. induction IH as [| x items Hx _ IHitems]; [constructor|].
      inversion Hvalid; subst. constructor; auto. }
    destruct Hall as [| x items Hx Hitems]; [reflexivity|].
    destruct (renderItems_head x items) as (c & tl & Hc & Hstart).
    rewrite Hc. cbn [app].
    destruct (valueStart_first c (tl ++ "]" :: rest) Hstart) as (-> & -> & _).
    change (c :: tl ++ "]" :: rest) with ((c :: tl) ++ "]" :: rest). rewrite <- Hc.
    rewrite (parseItems_renderItems items Hitems x fuel rest Hx)
      by (cbn [jsize] in Hfuel; lia).
    reflexivity.
  - rewrite parseValue_S, render_JObj.
    cbn [app skipSpace isSpace Ascii.eqb Bool.eqb orb]. rewrite <- app_assoc. cbn [app].
    cbn [validText] in Hvalid. apply forallb_Forall in Hvalid.
    assert (Forall (fun kv => validUTF8 kv.1 = true /\ readsBack kv.2) members) as Hall.
    { clear Hfuel. induction IH as [| kv members Hkv _ IHmembers]; [constructor|].
      inversion Hvalid as [| ? ? Hhead Htail]; subst.
      apply andb_true_iff in Hhead as [Hk Hv]. constructor; auto. }
    destruct Hall as [| kv members Hkv Hmembers]; [reflexivity|].
    destruct (renderMembers_head kv members) as (tl & Htl).
    rewrite Htl. cbn [app skipSpace isSpace Ascii.eqb Bool.eqb orb startsWith].
    change ("034" :: tl ++ "}" :: rest) with (("034" :: tl) ++ "}" :: rest). rewrite <- Htl.
    rewrite (parseMembers_renderMembers members Hmembers kv fuel rest Hkv)
      by (cbn [jsize] in Hfuel; lia).
    reflexivity.
Qed.

Lemma render_nonempty (j : json) : (1 <= length (render j))%nat.
Proof.
  destruct (render_head j) as (c & tl & -> & _). cbn [length]. lia.
Qed.

Lemma jsize_le_length (j : json) : (jsize j <= length (render j))%nat.
Proof.
  induction j as [ | b | n | s | items IH | members IH] using json_ind;
    try (apply render_nonempty).
  - rewrite render_JArr. cbn [jsize length]. rewrite length_app. cbn [length].
    enough (sum_list_with (fun x => S (jsize x)) items <= length (renderItems items) + 1)%nat
      by lia.
    induction IH as [| x items Hx Hitems IHitems]; [cbn; lia|].
    cbn [sum_list_with]. destruct items as [| y items].
    + cbn [renderItems sum_list_with]. lia.
    + change (renderItems (x :: y :: items))
        with (render x ++ "," :: renderItems (y :: items)).
      rewrite length_app. cbn [length]. lia.
  - rewrite render_JObj. cbn [jsize length]. rewrite length_app. cbn [length].
    enough (sum_list_with (fun kv => S (jsize kv.2)) members
            <= length (renderMembers members) + 1)%nat by lia.
    induction IH as [| [k v] members Hv Hmembers IHmembers]; [cbn; lia|].
    cbn [sum_list_with snd] in *. destruct members as [| kv' members].
    + cbn [renderMembers sum_list_with fst snd]. rewrite length_app. cbn [length]. lia.
    + change (renderMembers ((k, v) :: kv' :: members))
        with (renderString k ++ ":" :: render v ++ "," :: renderMembers (kv' :: members)).
      rewrite length_app. cbn [length]. rewrite length_app. cbn [length]. lia.
Qed.

Lemma roundFloat64_exact (n : Z) : (Z.abs n <=? 2 ^ 53)%Z = true -> roundFloat64 n = Some n.
Proof. intros H. unfold roundFloat64. cbv zeta. rewrite H. reflexivity. Qed.

Lemma lastWins_NoDup (members : list (string * json)) :
  NoDup members.*1 -> lastWins members = members.
Proof.
  induction members as [| kv members IH]; [reflexivity|].
  rewrite fmap_cons, NoDup_cons. intros [Hnotin Hnodup].
  cbn [lastWins foldr]. fold (lastWins members). rewrite IH by exact Hnodup.
  unfold addMember. rewrite bool_decide_eq_false_2 by exact Hnotin. reflexivity.
Qed.

(** Decoding into [any] changes nothing in a value whose numbers a
    [float64] holds and whose member names are distinct. *)
Lemma decodeAny_exact (j : json) : exactAny j = true -> decodeAny j = Some j.
Proof.
  induction j as [ | b | n | s | items IH | members IH] using json_ind;
    intros Hexact; try reflexivity.
  - cbn [decodeAny exactAny] in *. rewrite roundFloat64_exact by exact Hexact. reflexivity.
  - cbn [decodeAny exactAny] in *.
    assert (mapM decodeAny items = Some items) as ->; [|reflexivity].
    induction IH as [| x items Hx _ IHitems]; [reflexivity|].
    cbn [forallb] in Hexact. apply andb_true_iff in Hexact as [Hhead Htail].
    cbn [mapM]. rewrite (Hx Hhead). cbn. rewrite (IHitems Htail). reflexivity.
  - cbn [decodeAny exactAny] in *. apply andb_true_iff in Hexact as [Hexact Hnodup].
    apply bool_decide_eq_true_1 in Hnodup.
    assert (mapM (fun kv => pair kv.1 <$> decodeAny kv.2) members = Some members) as ->.
    { clear Hnodup. induction IH as [| [k v] members Hv _ IHmembers]; [reflexivity|].
      cbn [forallb snd] in Hexact. apply andb_true_iff in Hexact as [Hhead Htail].
      cbn [mapM fst snd] in *. rewrite (Hv Hhead). cbn. rewrite (IHmembers Htail).
      reflexivity. }
    cbn. rewrite lastWins_NoDup by exact Hnodup. reflexivity.
Qed.

(** The body [Encode] writes, the rendering and a newline, unmarshals to
    the value that was rendered when that value is portable. *)
Lemma Unmarshal_render (j : json) :
  portable j = true -> Unmarshal (render j ++ ["010"]) = Some j.
Proof.
  unfold portable. rewrite !andb_true_iff. intros [[Hvalid Hexact] Hdepth].
  unfold Unmarshal.
  rewrite (parseValue_render j Hvalid)
    by (rewrite ?length_app; pose proof (jsize_le_length j); reflexivity || lia).
  cbn [skipSpace isSpace Ascii.eqb Bool.eqb orb]. rewrite Hdepth.
  apply decodeAny_exact, Hexact.
Qed.


Local Close Scope char_scope.

(** The reader on texts the encoder never writes: a surrogate pair gives one
    code point and a surrogate on its own U+FFFD, as does a byte that is not
    UTF-8; of two members with the same name the later one is kept; white
    space is skipped; a zero in front of a digit, a sign without digits, a
    control character inside a string and an empty text are refused; an
    integer too large for a [float64] is refused. *)
Lemma Unmarshal_examples :
  let q := ["034"%char] in
  Unmarshal (q ++ bytes_of "\ud83d\ude00" ++ q)
  = Some (JStr (String "240" (String "159" (String "152" (String "128" EmptyString)))))
  /\ Unmarshal (q ++ bytes_of "\ud83d" ++ q)
     = Some (JStr (String "239" (String "191" (String "189" EmptyString))))
  /\ Unmarshal (q ++ ["255"%char] ++ q)
     = Some (JStr (String "239" (String "191" (String "189" EmptyString))))
  /\ Unmarshal (bytes_of "{" ++ q ++ bytes_of "a" ++ q ++ bytes_of ":1,"
                ++ q ++ bytes_of "b" ++ q ++ bytes_of ":[],"
                ++ q ++ bytes_of "a" ++ q ++ bytes_of ":2}")
     = Some (JObj [("b", JArr []); ("a", JNum 2)])
  /\ Unmarshal (bytes_of " [1 , -20 ] ") = Some (JArr [JNum 1; JNum (-20)])
  /\ Unmarshal (bytes_of "[01]") = None
  /\ Unmarshal (bytes_of "-") = None
  /\ Unmarshal (q ++ ["009"%char] ++ q) = None
  /\ Unmarshal [] = None
  /\ Unmarshal (bytes_of "1" ++ repeat "0"%char 308) <> None
  /\ Unmarshal (bytes_of "1" ++ repeat "0"%char 309) = None.
Proof.
  vm_compute. repeat (split; [reflexivity|]). split; [discriminate | reflexivity].
Qed.

(** ** The transport helper *)

Section Transport.

Context {W : Type} {RW : http.ResponseWriter W}.

Lemma RespondJSON_unfold (w : W) (S : Z) (P : GoValue) :
  RespondJSON w S P =
  match http.WriteHeader S (withContentType w) with
  | Done w1 =>
      match Marshal P with
      | inl e => Done (w1, Some e)
      | inr j => http.Write (render j ++ ["010"%char]) w1
      end
  | Panic msg => Panic msg
  end.
Proof.
  unfold RespondJSON, withContentType, Encode, mbind, Outcome_bind.
  destruct (http.WriteHeader S _); reflexivity.
Qed.

(** C1, amended. Whenever [RespondJSON] returns, it returns a failure if and
    only if the payload has no JSON form or the writer's [Write] of the body
    reports an error; for a payload with a JSON form the result is exactly
    what that [Write] returns. *)
Theorem RespondJSON_fails_iff (w w' : W) (S : Z) (P : GoValue) (err : option error) :
  RespondJSON w S P = Done (w', err) ->
  exists w1, http.WriteHeader S (withContentType w) = Done w1
    /\ (is_Some err <->
          (exists e, Marshal P = inl e)
          \/ (exists j w2 e, Marshal P = inr j
                /\ http.Write (render j ++ ["010"%char]) w1 = Done (w2, Some e)))
    /\ (forall j, Marshal P = inr j ->
          http.Write (render j ++ ["010"%char]) w1 = Done (w', err)).
Proof.
  rewrite RespondJSON_unfold.
  destruct (http.WriteHeader S (withContentType w)) as [w1 | msg]; [|discriminate].
  intros H. exists w1. split; [reflexivity|].
  destruct (Marshal P) as [e | j].
  - injection H as <- <-. split.
    + split; [intros _; left; exists e; reflexivity | intros _; eexists; reflexivity].
    + intros j Hj. discriminate Hj.
  - split.
    + split.
      * intros [e ->]. right. exists j, w', e. split; [reflexivity | exact H].
      * intros [[e He] | (j' & w2 & e & Hj' & Hw)]; [discriminate He|].
        injection Hj' as <-. rewrite H in Hw. injection Hw as _ ->.
        eexists; reflexivity.
    + intros j' Hj'. injection Hj' as <-. exact H.
Qed.

End Transport.

Lemma RespondJSON_fails_iff_witness :
  exists w1, http.WriteHeader StatusNoContent (withContentType http.newResponse) = Done w1
    /\ (is_Some (Some ErrBodyNotAllowed) <->
          (exists e, Marshal (VString "ok") = inl e)
          \/ (exists j w2 e, Marshal (VString "ok") = inr j
                /\ http.Write (render j ++ ["010"%char]) w1 = Done (w2, Some e)))
    /\ (forall j, Marshal (VString "ok") = inr j ->
          http.Write (render j ++ ["010"%char]) w1
          = Done ({| http.reqMethod := "GET";
                     http.handlerHeader := {[ "Content-Type" := ["application/json"] ]};
                     http.wroteHeader := true; http.status := 204;
                     http.cwHeader := Some {[ "Content-Type" := ["application/json"] ]};
                     http.informational := []; http.body := [] |},
                  Some ErrBodyNotAllowed)).
Proof.
  apply (RespondJSON_fails_iff http.newResponse _ StatusNoContent (VString "ok") _).
  vm_compute. reflexivity.
Defined.

(** C1, as stated, fails on the server's own writer: with status 204 the
    body is refused, and the helper returns that error for a payload that
    serializes without any. *)
Lemma RespondJSON_no_content :
  RespondJSON http.newResponse StatusNoContent (VString "ok")
  = Done ({| http.reqMethod := "GET";
             http.handlerHeader := {[ "Content-Type" := ["application/json"] ]};
             http.wroteHeader := true; http.status := 204;
             http.cwHeader := Some {[ "Content-Type" := ["application/json"] ]};
             http.informational := []; http.body := [] |},
          Some ErrBodyNotAllowed)
  /\ Marshal (VString "ok") = inr (JStr "ok")
  /\ ~ (returnsError (RespondJSON http.newResponse StatusNoContent (VString "ok"))
        <-> exists e, Marshal (VString "ok") = inl e).
Proof.
  assert (RespondJSON http.newResponse StatusNoContent (VString "ok")
  = Done ({| http.reqMethod := "GET";
             http.handlerHeader := {[ "Content-Type" := ["application/json"] ]};
             http.wroteHeader := true; http.status := 204;
             http.cwHeader := Some {[ "Content-Type" := ["application/json"] ]};
             http.informational := []; http.body := [] |},
          Some ErrBodyNotAllowed)) as Hrun by (vm_compute; reflexivity).
  split; [exact Hrun|]. split; [reflexivity|].
  intros [Hfail _]. destruct Hfail as [e He]; [|discriminate He].
  rewrite Hrun. eexists _, _. reflexivity.
Qed.




(** ** The v1 package *)

(** The re-exports add no behaviour. *)
Lemma v1_forwards :
  (forall data meta, v1.NewSuccessResponse data meta = NewSuccessResponse data meta)
  /\ (forall httpStatus code message,
        v1.NewErrorResponse httpStatus code message
        = NewErrorResponse httpStatus code message)
  /\ (forall details,
        v1.NewValidationErrorResponse details = NewValidationErrorResponse details)
  /\ (forall W (RW : http.ResponseWriter W) (w : W) statusCode payload,
        v1.RespondJSON w statusCode payload = RespondJSON w statusCode payload).
Proof. repeat split. Qed.

(** * Further properties *)

(** ** What the serialized envelope shows *)

(** X1. The HTTP status of an error detail never reaches the serialized
    form: changing it leaves the output unchanged, and the only keys are
    code, message and details. *)
Theorem APIError_HTTPStatus_hidden (e : APIError) (httpStatus : Z) :
  marshalAPIError {| HTTPStatus := httpStatus; Code := Code e;
                     Message := Message e; Details := Details e |}
  = marshalAPIError e
  /\ (forall k, k ∈ keys (marshalAPIError e) ->
        k = "code" \/ k = "message" \/ k = "details").
Proof.
  split; [reflexivity|].
  unfold marshalAPIError. intros k. destruct (decide (Details e = [])); member_of_keys.
Qed.

(** X2. Every envelope serializes its fields in the order status, trace_id,
    data, error, meta, leaving out trace_id when empty, data when it is the
    nil interface, error and meta when nil. Serialization fails exactly when
    the data has no JSON form, and then with the data's error: it fails
    with an error if and only if marshalling the data fails with it. *)
Theorem envelope_keys (r : APIResponse) :
  (forall err, Marshal (VEnvelope r) = inl err <-> Marshal (Data r) = inl err)
  /\ match Marshal (VEnvelope r) with
     | inr j =>
         keys j = ["status"]
                  ++ (if decide (TraceID r = "") then [] else ["trace_id"])
                  ++ (match Data r with VNil => [] | _ => ["data"] end)
                  ++ (if Error r is Some _ then ["error"] else [])
                  ++ (if Meta r is Some _ then ["meta"] else [])
     | inl err => Marshal (Data r) = inl err
     end.
Proof.
  destruct r as [st tid data err meta]. cbn [Marshal Data Status TraceID Error Meta].
  assert (isNilInterface data = true -> data = VNil) as Hnil
    by (destruct data; intros H; first [reflexivity | discriminate H]).
  destruct (isNilInterface data) eqn:Hdata.
  - rewrite (Hnil eq_refl). split; [intros e; split; intros H; discriminate H|].
    cbn [keys app fmap list_fmap fst].
    destruct (decide (tid = "")), err, meta; reflexivity.
  - clear Hnil. destruct (Marshal data) as [e | j] eqn:Hm.
    + split; [|reflexivity]. intros e'. split; intros H; exact H.
    + split; [intros e'; split; intros H; discriminate H|].
      destruct data; try discriminate Hdata;
        destruct (decide (tid = "")), err, meta; reflexivity.
Qed.

(** X3. The wire form of a generic error response has exactly the keys
    status and error, and the error object exactly code and message: the
    HTTP status given to the builder does not appear. *)
Theorem NewErrorResponse_wire (httpStatus : Z) (code message : string) :
  Marshal (VEnvelope (NewErrorResponse httpStatus code message))
  = inr (JObj [("status", JStr "error");
               ("error", JObj [("code", JStr code); ("message", JStr message)])]).
Proof. reflexivity. Qed.

(** X4. The wire form of a validation error response: the details appear as
    an array of field and message pairs in the order given, and the key is
    left out altogether when the sequence is empty. *)
Theorem NewValidationErrorResponse_wire (details : list ValidationError) :
  Marshal (VEnvelope (NewValidationErrorResponse details))
  = inr (JObj [("status", JStr "error");
               ("error",
                JObj ([("code", JStr "VALIDATION_FAILED");
                       ("message", JStr "Data yang dikirim tidak valid.")]
                      ++ match details with
                         | [] => []
                         | _ => [("details",
                                  JArr ((fun d => JObj [("field", JStr (Field d));
                                                        ("message", JStr (FieldMessage d))])
                                        <$> details))]
                         end))]).
Proof. destruct details; reflexivity. Qed.

(** X5. The wire form of a success response, for data that has a JSON
    form: status, then data unless it is the nil interface (a typed nil is
    written as null), then meta whenever the pointer is not nil, even when
    all three of its fields are zero, in which case it is the empty
    object. *)
Theorem NewSuccessResponse_wire (data : GoValue) (jd : json) (meta : option Metadata) :
  Marshal data = inr jd ->
  Marshal (VEnvelope (NewSuccessResponse data meta))
  = inr (JObj ([("status", JStr "success")]
               ++ (if isNilInterface data then [] else [("data", jd)])
               ++ match meta with
                  | None => []
                  | Some m => [("meta", marshalMetadata m)]
                  end))
  /\ marshalMetadata {| Page := 0; PerPage := 0; TotalItems := 0 |} = JObj []
  /\ Marshal (VEnvelope (NewSuccessResponse VTypedNil None))
     = inr (JObj [("status", JStr "success"); ("data", JNull)]).
Proof.
  intros Hd. split; [|split; reflexivity].
  cbn [Marshal NewSuccessResponse Data Status TraceID Error Meta]. rewrite Hd.
  rewrite decide_True by reflexivity.
  destruct (isNilInterface data), meta; reflexivity.
Qed.

Lemma NewSuccessResponse_wire_witness :
  Marshal (VEnvelope (NewSuccessResponse (VSlice [VInt 1]) (Some (mkMetadata 0 0 0))))
  = inr (JObj ([("status", JStr "success")]
               ++ (if isNilInterface (VSlice [VInt 1]) then [] else [("data", JArr [JNum 1])])
               ++ match Some (mkMetadata 0 0 0) with
                  | None => []
                  | Some m => [("meta", marshalMetadata m)]
                  end))
  /\ marshalMetadata {| Page := 0; PerPage := 0; TotalItems := 0 |} = JObj []
  /\ Marshal (VEnvelope (NewSuccessResponse VTypedNil None))
     = inr (JObj [("status", JStr "success"); ("data", JNull)]).
Proof.
  apply (NewSuccessResponse_wire (VSlice [VInt 1]) (JArr [JNum 1]) (Some (mkMetadata 0 0 0))).
  reflexivity.
Defined.

(** ** Contexts and trace ids *)

(** X6. [NewAPIResponse] never panics and sets nothing but the trace id: for
    every context, [nil] or not, whatever is bound to the trace key, the
    envelope it returns has empty status and no data, error or metadata. *)
Theorem NewAPIResponse_only_trace (ctx : Context) :
  exists resp, NewAPIResponse ctx = Done resp
    /\ Status resp = "" /\ Data resp = VNil /\ Error resp = None /\ Meta resp = None
    /\ (forall c, ctx = Some c -> TraceID resp = (assertString (Value c traceIDKey)).1).
Proof.
  destruct ctx as [c|]; unfold NewAPIResponse; cbn.
  - destruct (Value c traceIDKey) eqn:Hv; cbn; eexists; (split; [reflexivity|]);
      repeat split; intros c' [= <-]; rewrite Hv; reflexivity.
  - eexists; split; [reflexivity|]. repeat split. intros c [=].
Qed.

Lemma NewAPIResponse_valueCtx_trace (c : ctx) (T : string) :
  NewAPIResponse (Some (valueCtx c traceIDKey (VString T)))
  = Done (setTraceID T zeroAPIResponse).
Proof.
  unfold NewAPIResponse. cbn.
  destruct (decide (traceIDKey = traceIDKey)) as [_ | Hne]; [reflexivity|].
  contradiction Hne; reflexivity.
Qed.

(** X7. A trace id survives what is derived from its context: binding a
    value under another package's key, or deriving a cancellable context,
    leaves the trace id that [NewAPIResponse] reads unchanged; attaching a
    second trace id replaces the first. *)
Theorem trace_id_derivation (c : ctx) (T T' name : string) (v : GoValue) :
  (ctx1 ← WithTraceID (Some c) T;
   ctx2 ← WithValue ctx1 (otherKey name) v;
   NewAPIResponse ctx2) = Done (setTraceID T zeroAPIResponse)
  /\ NewAPIResponse (Some (cancelCtx (valueCtx c traceIDKey (VString T))))
     = Done (setTraceID T zeroAPIResponse)
  /\ (ctx1 ← WithTraceID (Some c) T;
      ctx2 ← WithTraceID ctx1 T';
      NewAPIResponse ctx2) = Done (setTraceID T' zeroAPIResponse).
Proof.
  split; [|split].
  - cbn. unfold NewAPIResponse. cbn.
    destruct (decide (otherKey name = traceIDKey)) as [Heq | _]; [discriminate Heq|].
    destruct (decide (traceIDKey = traceIDKey)) as [_ | Hne]; [reflexivity|].
    contradiction Hne; reflexivity.
  - unfold NewAPIResponse. cbn.
    destruct (decide (traceIDKey = traceIDKey)) as [_ | Hne]; [reflexivity|].
    contradiction Hne; reflexivity.
  - exact (NewAPIResponse_valueCtx_trace (valueCtx c traceIDKey (VString T)) T').
Qed.

Lemma valueCtx_neq_parent (c : ctx) (key : Key) (val : GoValue) :
  valueCtx c key val <> c.
Proof.
  revert key val. induction c as [| parent IH k v | parent IH]; intros key val H;
    try discriminate H.
  injection H as Hp _ _. exact (IH _ _ Hp).
Qed.

(** X8. On a context other than [nil], [WithTraceID] returns a new context,
    different from its parent, in which the trace key is bound to the given
    string and every other key has the value it had in the parent. *)
Theorem WithTraceID_new_context (c : ctx) (T : string) :
  exists c', WithTraceID (Some c) T = Done (Some c')
    /\ c' <> c
    /\ assertString (Value c' traceIDKey) = (T, true)
    /\ (forall name, Value c' (otherKey name) = Value c (otherKey name)).
Proof.
  exists (valueCtx c traceIDKey (VString T)).
  split; [reflexivity|]. split; [apply valueCtx_neq_parent|]. split.
  - cbn. destruct (decide (traceIDKey = traceIDKey)) as [_ | Hne]; [reflexivity|].
    contradiction Hne; reflexivity.
  - intros name. cbn.
    destruct (decide (traceIDKey = otherKey name)) as [Heq | _]; [discriminate Heq|].
    reflexivity.
Qed.

(** ** The transport helper on the recorder *)

Lemma RespondJSON_recorder_state (detect : bytes -> string)
    (rw : httptest.ResponseRecorder) (S : Z) (P : GoValue) :
  httptest.wroteHeader rw = false -> 100 <= S <= 999 ->
  RespondJSON (RW := httptest.recorder_ResponseWriter detect) rw S P
  = let h := http.Set_ (httptest.HeaderMap rw) "Content-Type" "application/json" in
    match Marshal P with
    | inl e =>
        Done ({| httptest.Code := S; httptest.HeaderMap := h;
                 httptest.Body := httptest.Body rw;
                 httptest.snapHeader := Some h; httptest.wroteHeader := true |}, Some e)
    | inr j =>
        Done ({| httptest.Code := S; httptest.HeaderMap := h;
                 httptest.Body := httptest.Body rw ++ render j ++ ["010"%char];
                 httptest.snapHeader := Some h; httptest.wroteHeader := true |},
              if http.bodyAllowedForStatus S then None else Some ErrBodyNotAllowed)
    end.
Proof.
  intros Hfresh HS. rewrite RespondJSON_unfold. unfold withContentType.
  cbn [http.WriteHeader http.putHeader http.Header http.Write
       httptest.recorder_ResponseWriter].
  unfold httptest.recorder_WriteHeader. cbn [httptest.wroteHeader].
  rewrite Hfresh. unfold http.checkWriteHeaderCode.
  rewrite decide_False by lia. cbn [mbind Outcome_bind].
  destruct (Marshal P) as [e | j]; [reflexivity|].
  unfold httptest.recorder_Write, httptest.recorder_writeHeader.
  cbn [httptest.wroteHeader httptest.Code httptest.HeaderMap httptest.Body
       httptest.snapHeader mbind Outcome_bind].
  destruct (http.bodyAllowedForStatus S); reflexivity.
Qed.

(** X9. A payload with no JSON form, on a recorder nothing has been
    written to, with a status code of three digits: the helper returns the
    encoder's error, yet the status code and the JSON content type are
    already recorded as committed, and nothing is added to the body. *)
Theorem RespondJSON_unserializable (detect : bytes -> string)
    (rw : httptest.ResponseRecorder) (S : Z) (P : GoValue) (e : error) :
  Marshal P = inl e ->
  httptest.wroteHeader rw = false ->
  100 <= S <= 999 ->
  exists rw',
    RespondJSON (RW := httptest.recorder_ResponseWriter detect) rw S P = Done (rw', Some e)
    /\ httptest.Code rw' = S
    /\ httptest.wroteHeader rw' = true
    /\ (exists h, httptest.snapHeader rw' = Some h
                  /\ h !! "Content-Type" = Some ["application/json"])
    /\ httptest.Body rw' = httptest.Body rw.
Proof.
  intros HP Hrw HS.
  rewrite RespondJSON_recorder_state by assumption. rewrite HP. cbn zeta.
  eexists. split; [reflexivity|]. cbn. repeat split.
  eexists. split; [reflexivity|]. apply lookup_insert_eq.
Qed.

Lemma RespondJSON_unserializable_witness :
  exists rw',
    RespondJSON (RW := httptest.recorder_ResponseWriter (fun _ => "text/plain"))
      httptest.NewRecorder 200 (VSlice [VInt 1; VChan])
    = Done (rw', Some (UnsupportedTypeError "chan"))
    /\ httptest.Code rw' = 200
    /\ httptest.wroteHeader rw' = true
    /\ (exists h, httptest.snapHeader rw' = Some h
                  /\ h !! "Content-Type" = Some ["application/json"])
    /\ httptest.Body rw' = httptest.Body httptest.NewRecorder.
Proof.
  apply (RespondJSON_unserializable (fun _ => "text/plain") httptest.NewRecorder
           200 (VSlice [VInt 1; VChan]) (UnsupportedTypeError "chan"));
    first [reflexivity | lia].
Defined.

(** X10. The headers the recorder holds as committed after the helper are
    the ones the handler had set, with Content-Type replaced by the JSON
    media type: any earlier Content-Type is overwritten, every other header
    is kept as it was. This holds whether or not the payload serializes. *)
Theorem RespondJSON_headers (detect : bytes -> string)
    (rw : httptest.ResponseRecorder) (S : Z) (P : GoValue) :
  httptest.wroteHeader rw = false ->
  100 <= S <= 999 ->
  exists rw' err h,
    RespondJSON (RW := httptest.recorder_ResponseWriter detect) rw S P = Done (rw', err)
    /\ httptest.snapHeader rw' = Some h
    /\ h !! "Content-Type" = Some ["application/json"]
    /\ (forall key, key <> "Content-Type" -> h !! key = httptest.HeaderMap rw !! key).
Proof.
  intros Hrw HS.
  rewrite RespondJSON_recorder_state by assumption. cbn zeta.
  destruct (Marshal P); eexists _, _, _; (split; [reflexivity|]); cbn;
    (split; [reflexivity|]; split; [apply lookup_insert_eq|]);
    intros key Hkey; apply lookup_insert_ne; congruence.
Qed.

Lemma RespondJSON_headers_witness :
  exists rw' err h,
    RespondJSON (RW := httptest.recorder_ResponseWriter (fun _ => "text/plain"))
      {| httptest.Code := 200;
         httptest.HeaderMap :=
           {[ "Content-Type" := ["text/html"]; "X-Request-Id" := ["r1"] ]};
         httptest.Body := []; httptest.snapHeader := None;
         httptest.wroteHeader := false |} 404 (VString "gone") = Done (rw', err)
    /\ httptest.snapHeader rw' = Some h
    /\ h !! "Content-Type" = Some ["application/json"]
    /\ (forall key, key <> "Content-Type" ->
          h !! key
          = httptest.HeaderMap
              {| httptest.Code := 200;
                 httptest.HeaderMap :=
                   {[ "Content-Type" := ["text/html"]; "X-Request-Id" := ["r1"] ]};
                 httptest.Body := []; httptest.snapHeader := None;
                 httptest.wroteHeader := false |} !! key).
Proof.
  apply (RespondJSON_headers (fun _ => "text/plain")
           {| httptest.Code := 200;
              httptest.HeaderMap :=
                {[ "Content-Type" := ["text/html"]; "X-Request-Id" := ["r1"] ]};
              httptest.Body := []; httptest.snapHeader := None;
              httptest.wroteHeader := false |}
           404 (VString "gone")); first [reflexivity | lia].
Defined.

Lemma RespondJSON_recorder_written (detect : bytes -> string)
    (rw : httptest.ResponseRecorder) (S : Z) (P : GoValue) :
  httptest.wroteHeader rw = true ->
  RespondJSON (RW := httptest.recorder_ResponseWriter detect) rw S P
  = let h := http.Set_ (httptest.HeaderMap rw) "Content-Type" "application/json" in
    match Marshal P with
    | inl e =>
        Done ({| httptest.Code := httptest.Code rw; httptest.HeaderMap := h;
                 httptest.Body := httptest.Body rw;
                 httptest.snapHeader := httptest.snapHeader rw;
                 httptest.wroteHeader := true |}, Some e)
    | inr j =>
        Done ({| httptest.Code := httptest.Code rw; httptest.HeaderMap := h;
                 httptest.Body := httptest.Body rw ++ render j ++ ["010"%char];
                 httptest.snapHeader := httptest.snapHeader rw;
                 httptest.wroteHeader := true |},
              if http.bodyAllowedForStatus (httptest.Code rw)
              then None else Some ErrBodyNotAllowed)
    end.
Proof.
  intros Hwritten. rewrite RespondJSON_unfold. unfold withContentType.
  cbn [http.WriteHeader http.putHeader http.Header http.Write
       httptest.recorder_ResponseWriter].
  unfold httptest.recorder_WriteHeader. cbn [httptest.wroteHeader].
  rewrite Hwritten. cbn zeta.
  destruct (Marshal P) as [e | j]; [reflexivity|].
  unfold httptest.recorder_Write, httptest.recorder_writeHeader.
  cbn [httptest.wroteHeader]. rewrite ?Hwritten.
  cbn [httptest.wroteHeader httptest.Code httptest.HeaderMap httptest.Body
       httptest.snapHeader mbind Outcome_bind].
  destruct (http.bodyAllowedForStatus (httptest.Code rw)); reflexivity.
Qed.

(** X11. Two calls on the same recorder, the first with a status code of
    three digits that allows a body: the second cannot change what the first
    committed. Whatever its status code, even one that is not a valid code,
    it returns without error, the recorded code and the committed headers
    stay those of the first call, and its body is appended after the
    first. *)
Theorem RespondJSON_twice (detect : bytes -> string)
    (rw : httptest.ResponseRecorder) (S1 S2 : Z) (P1 P2 : GoValue) (j1 j2 : json) :
  httptest.wroteHeader rw = false -> 100 <= S1 <= 999 ->
  http.bodyAllowedForStatus S1 = true ->
  Marshal P1 = inr j1 -> Marshal P2 = inr j2 ->
  exists rw1 rw2,
    RespondJSON (RW := httptest.recorder_ResponseWriter detect) rw S1 P1 = Done (rw1, None)
    /\ RespondJSON (RW := httptest.recorder_ResponseWriter detect) rw1 S2 P2
       = Done (rw2, None)
    /\ httptest.Code rw2 = S1
    /\ httptest.snapHeader rw2 = httptest.snapHeader rw1
    /\ httptest.Body rw2
       = httptest.Body rw ++ (render j1 ++ ["010"%char]) ++ render j2 ++ ["010"%char].
Proof.
  intros Hfresh HS Hallowed HP1 HP2.
  rewrite RespondJSON_recorder_state by assumption. rewrite HP1, Hallowed. cbn zeta.
  eexists _, _. split; [reflexivity|].
  rewrite RespondJSON_recorder_written by reflexivity. rewrite HP2. cbn zeta.
  cbn [httptest.Code]. rewrite Hallowed.
  split; [reflexivity|]. cbn. split; [reflexivity|]. split; [reflexivity|].
  rewrite <- !app_assoc. reflexivity.
Qed.

Lemma RespondJSON_twice_witness :
  exists rw1 rw2,
    RespondJSON (RW := httptest.recorder_ResponseWriter (fun _ => "text/plain"))
      httptest.NewRecorder 201 (VString "a") = Done (rw1, None)
    /\ RespondJSON (RW := httptest.recorder_ResponseWriter (fun _ => "text/plain"))
         rw1 0 (VInt 7) = Done (rw2, None)
    /\ httptest.Code rw2 = 201
    /\ httptest.snapHeader rw2 = httptest.snapHeader rw1
    /\ httptest.Body rw2
       = httptest.Body httptest.NewRecorder
         ++ (render (JStr "a") ++ ["010"%char]) ++ render (JNum 7) ++ ["010"%char].
Proof.
  apply (RespondJSON_twice (fun _ => "text/plain") httptest.NewRecorder 201 0
           (VString "a") (VInt 7) (JStr "a") (JNum 7)); first [reflexivity | lia].
Defined.

Lemma http_Error_recorder_written (detect : bytes -> string)
    (rw : httptest.ResponseRecorder) (msg : string) (code : Z) :
  httptest.wroteHeader rw = true ->
  http_Error (RW := httptest.recorder_ResponseWriter detect) rw msg code
  = Done {| httptest.Code := httptest.Code rw;
            httptest.HeaderMap :=
              http.Set_
                (http.Set_ (Header_Del (httptest.HeaderMap rw) "Content-Length")
                   "Content-Type" "text/plain; charset=utf-8")
                "X-Content-Type-Options" "nosniff";
            httptest.Body := httptest.Body rw ++ bytes_of msg ++ ["010"%char];
            httptest.snapHeader := httptest.snapHeader rw;
            httptest.wroteHeader := true |}.
Proof.
  intros Hwritten. unfold http_Error, Fprintln.
  cbn [http.WriteHeader http.putHeader http.Header http.Write
       httptest.recorder_ResponseWriter httptest.HeaderMap].
  unfold httptest.recorder_WriteHeader. cbn [httptest.wroteHeader].
  rewrite Hwritten. cbn [mbind Outcome_bind].
  unfold httptest.recorder_Write, httptest.recorder_writeHeader.
  cbn [httptest.wroteHeader]. rewrite ?Hwritten.
  cbn [httptest.wroteHeader httptest.Code httptest.HeaderMap httptest.Body
       httptest.snapHeader mbind Outcome_bind].
  destruct (http.bodyAllowedForStatus (httptest.Code rw)); reflexivity.
Qed.

(** X12. The fallback of [successHandler]: [http.Error] after the helper has
    returned cannot take the response back. The recorded status code stays
    the one given to the helper, the committed headers keep the JSON content
    type, and the message is appended to whatever body was written; only the
    live header map shows the plain-text type. Any code is accepted, since
    it is never written. *)
Theorem http_Error_after_RespondJSON (detect : bytes -> string)
    (rw : httptest.ResponseRecorder) (S code : Z) (P : GoValue) (msg : string) :
  httptest.wroteHeader rw = false -> 100 <= S <= 999 ->
  exists rw1 err rw2,
    RespondJSON (RW := httptest.recorder_ResponseWriter detect) rw S P = Done (rw1, err)
    /\ http_Error (RW := httptest.recorder_ResponseWriter detect) rw1 msg code = Done rw2
    /\ httptest.Code rw2 = S
    /\ (exists h, httptest.snapHeader rw2 = Some h
                  /\ h !! "Content-Type" = Some ["application/json"])
    /\ http.Get (httptest.HeaderMap rw2) "Content-Type" = "text/plain; charset=utf-8"
    /\ httptest.Body rw2 = httptest.Body rw1 ++ bytes_of msg ++ ["010"%char].
Proof.
  intros Hfresh HS.
  rewrite RespondJSON_recorder_state by assumption. cbn zeta.
  destruct (Marshal P) as [e | j]; eexists _, _, _; (split; [reflexivity|]);
    rewrite http_Error_recorder_written by reflexivity;
    (split; [reflexivity|]); cbn; (split; [reflexivity|]);
    (split; [eexists; split; [reflexivity | apply lookup_insert_eq]|]);
    (split; [|reflexivity]);
    unfold http.Get, http.Set_;
    rewrite lookup_insert_ne by discriminate; rewrite lookup_insert_eq; reflexivity.
Qed.

Lemma http_Error_after_RespondJSON_witness :
  exists rw1 err rw2,
    RespondJSON (RW := httptest.recorder_ResponseWriter (fun _ => "text/plain"))
      httptest.NewRecorder 200 VChan = Done (rw1, err)
    /\ http_Error (RW := httptest.recorder_ResponseWriter (fun _ => "text/plain"))
         rw1 "Internal server error" 500 = Done rw2
    /\ httptest.Code rw2 = 200
    /\ (exists h, httptest.snapHeader rw2 = Some h
                  /\ h !! "Content-Type" = Some ["application/json"])
    /\ http.Get (httptest.HeaderMap rw2) "Content-Type" = "text/plain; charset=utf-8"
    /\ httptest.Body rw2
       = httptest.Body rw1 ++ bytes_of "Internal server error" ++ ["010"%char].
Proof.
  apply (http_Error_after_RespondJSON (fun _ => "text/plain") httptest.NewRecorder
           200 500 VChan "Internal server error"); first [reflexivity | lia].
Defined.

(** ** The test helper *)



(** Without well-formed strings the helper can hold for two different
    values: each offending byte is written as U+FFFD. *)
Lemma jsonEqual_replacement :
  jsonEqual (VString (String "255" EmptyString)) (VString (String "254" EmptyString)) = true
  /\ Marshal (VString (String "255" EmptyString))
     <> Marshal (VString (String "254" EmptyString)).
Proof. split; [reflexivity | discriminate]. Qed.

(** ** The example handlers, run against the recorder *)

Section HandlersOnRecorder.

Variable detect : bytes -> string.

Lemma copyTraceID_WithTraceID (c : ctx) (T : string) (resp : APIResponse) :
  (ctx ← WithTraceID (Some c) T; copyTraceID ctx resp) = Done (setTraceID T resp).
Proof.
  unfold WithTraceID, WithValue. cbn [mbind Outcome_bind]. unfold copyTraceID.
  rewrite NewAPIResponse_valueCtx_trace. reflexivity.
Qed.

Lemma RespondJSON_recorder_serializable
    (rw : httptest.ResponseRecorder) (S : Z) (P : GoValue) (j : json) :
  httptest.wroteHeader rw = false -> httptest.Body rw = [] -> 100 <= S <= 999 ->
  http.bodyAllowedForStatus S = true ->
  Marshal P = inr j ->
  RespondJSON (RW := httptest.recorder_ResponseWriter detect) rw S P
  = Done ({| httptest.Code := S;
             httptest.HeaderMap :=
               http.Set_ (httptest.HeaderMap rw) "Content-Type" "application/json";
             httptest.Body := render j ++ ["010"%char];
             httptest.snapHeader :=
               Some (http.Set_ (httptest.HeaderMap rw) "Content-Type" "application/json");
             httptest.wroteHeader := true |}, None).
Proof.
  intros Hfresh Hbody HS Hallowed HP. rewrite RespondJSON_recorder_state by assumption.
  rewrite HP, Hbody, Hallowed. reflexivity.
Qed.

Ltac run_on_recorder j :=
  rewrite (RespondJSON_recorder_serializable _ _ _ j)
    by first [assumption | reflexivity | (cbv; split; discriminate)];
  cbn [mbind Outcome_bind];
  eexists; split; [reflexivity|];
  cbn [httptest.Code httptest.Body httptest.HeaderMap httptest.snapHeader];
  split; [reflexivity|]; split;
  [unfold http.Get, http.Set_; rewrite lookup_insert_eq; reflexivity
  |apply Unmarshal_render; vm_compute; reflexivity].

(** X14. [successHandler], for every request: it answers 200 with the JSON
    content type and logs nothing; the body is the success envelope with the
    trace id trace-123 and the fixed data, whatever trace id the request's
    own context carried. *)
Theorem successHandler_recorder (rw : httptest.ResponseRecorder) (r : Request) :
  httptest.wroteHeader rw = false -> httptest.Body rw = [] ->
  exists rw',
    example.successHandler (RW := httptest.recorder_ResponseWriter detect) rw r
    = Done (rw', [])
    /\ httptest.Code rw' = 200
    /\ http.Get (httptest.HeaderMap rw') "Content-Type" = "application/json"
    /\ Unmarshal (httptest.Body rw')
       = Some (JObj [("status", JStr "success");
                     ("trace_id", JStr "trace-123");
                     ("data", JObj [("message", JStr "Operation successful");
                                    ("user", JObj [("id", JStr "123");
                                                   ("name", JStr "John Doe")])])]).
Proof.
  intros Hfresh Hbody. unfold example.successHandler, v1.RespondJSON.
  unfold WithTraceID, WithValue, Request_Context. cbn [mbind Outcome_bind].
  rewrite NewAPIResponse_valueCtx_trace. cbn [mbind Outcome_bind].
  run_on_recorder
    (JObj [("status", JStr "success");
           ("trace_id", JStr "trace-123");
           ("data", JObj [("message", JStr "Operation successful");
                          ("user", JObj [("id", JStr "123");
                                         ("name", JStr "John Doe")])])]).
Qed.

(** X15. [errorHandler] never takes its error path, because [simulateError]
    always returns nil: for every request, with or without an X-Trace-ID
    header, it answers 200 with a success envelope that has no trace id. *)
Theorem errorHandler_recorder (rw : httptest.ResponseRecorder) (r : Request) :
  httptest.wroteHeader rw = false -> httptest.Body rw = [] ->
  exists rw',
    example.errorHandler (RW := httptest.recorder_ResponseWriter detect) rw r
    = Done (rw', [])
    /\ httptest.Code rw' = 200
    /\ http.Get (httptest.HeaderMap rw') "Content-Type" = "application/json"
    /\ Unmarshal (httptest.Body rw')
       = Some (JObj [("status", JStr "success");
                     ("data", JObj [("status", JStr "ok")])]).
Proof.
  intros Hfresh Hbody.
  unfold example.errorHandler, example.simulateError, example.errorHandlerOn,
    v1.RespondJSON, v1.NewSuccessResponse.
  run_on_recorder (JObj [("status", JStr "success");
                         ("data", JObj [("status", JStr "ok")])]).
Qed.

(** X16. The error path of [errorHandler], which the shipped code never
    takes since [simulateError] always returns nil; were it to return an
    error: the handler answers 500 with the error envelope, and the envelope
    carries a trace id exactly when the request has a non-empty X-Trace-ID
    header, whose first value it is. The header value is taken to be
    well-formed UTF-8, as it has to be to come back from the body
    unchanged. *)
Theorem errorHandler_error_path (rw : httptest.ResponseRecorder) (r : Request)
    (e : error) :
  httptest.wroteHeader rw = false -> httptest.Body rw = [] ->
  validUTF8 (http.Get (Request_Header r) "X-Trace-Id") = true ->
  exists rw',
    example.errorHandlerOn (RW := httptest.recorder_ResponseWriter detect) (Some e) rw r
    = Done (rw', [])
    /\ httptest.Code rw' = 500
    /\ http.Get (httptest.HeaderMap rw') "Content-Type" = "application/json"
    /\ Unmarshal (httptest.Body rw')
       = Some (JObj ([("status", JStr "error")]
                     ++ (if decide (http.Get (Request_Header r) "X-Trace-Id" = "")
                         then []
                         else [("trace_id",
                                JStr (http.Get (Request_Header r) "X-Trace-Id"))])
                     ++ [("error", JObj [("code", JStr "INTERNAL_ERROR");
                                         ("message", JStr "Database connection failed")])])).
Proof.
  intros Hfresh Hbody.
  unfold example.errorHandlerOn, v1.RespondJSON, v1.NewErrorResponse.
  cbn zeta. set (T := http.Get (Request_Header r) "X-Trace-Id"). intros Hvalid.
  destruct (decide (T <> "")) as [HT | HT].
  - unfold Request_Context. rewrite copyTraceID_WithTraceID. cbn [mbind Outcome_bind].
    rewrite (decide_False (P := T = "")) by exact HT.
    rewrite (RespondJSON_recorder_serializable _ _ _
               (JObj [("status", JStr "error"); ("trace_id", JStr T);
                      ("error", JObj [("code", JStr "INTERNAL_ERROR");
                                      ("message", JStr "Database connection failed")])]));
      [| assumption | assumption | cbv; split; discriminate | reflexivity
       | cbn [Marshal Data Status TraceID Error Meta NewErrorResponse setTraceID
              isNilInterface]; rewrite (decide_False (P := T = "")) by exact HT;
         reflexivity].
    cbn [mbind Outcome_bind]. eexists. split; [reflexivity|].
    cbn [httptest.Code httptest.Body httptest.HeaderMap httptest.snapHeader].
    split; [reflexivity|]. split;
      [unfold http.Get, http.Set_; rewrite lookup_insert_eq; reflexivity|].
    apply Unmarshal_render. unfold portable. rewrite !andb_true_iff.
    split; [split|]; [|vm_compute; reflexivity ..].
    simpl. rewrite Hvalid. reflexivity.
  - assert (T = "") as HT' by (destruct (decide (T = "")); [assumption | contradiction]).
    rewrite (decide_True (P := T = "")) by exact HT'. cbn [mbind Outcome_bind].
    run_on_recorder (JObj [("status", JStr "error");
                           ("error", JObj [("code", JStr "INTERNAL_ERROR");
                                           ("message", JStr "Database connection failed")])]).
Qed.

(** X17. [validationHandler], for every request: the status code it writes,
    422, is the one its envelope records, and the body carries the trace id
    and the three field errors in the order email, password, age. *)
Theorem validationHandler_recorder (rw : httptest.ResponseRecorder) (r : Request) :
  httptest.wroteHeader rw = false -> httptest.Body rw = [] ->
  exists rw',
    example.validationHandler (RW := httptest.recorder_ResponseWriter detect) rw r
    = Done (rw', [])
    /\ httptest.Code rw' = 422
    /\ http.Get (httptest.HeaderMap rw') "Content-Type" = "application/json"
    /\ Unmarshal (httptest.Body rw')
       = Some (JObj [("status", JStr "error");
                     ("trace_id", JStr "validation-trace-456");
                     ("error",
                      JObj [("code", JStr "VALIDATION_FAILED");
                            ("message", JStr "Data yang dikirim tidak valid.");
                            ("details",
                             JArr [JObj [("field", JStr "email");
                                         ("message", JStr "Must be a valid email address")];
                                   JObj [("field", JStr "password");
                                         ("message",
                                          JStr "Must be at least 8 characters long")];
                                   JObj [("field", JStr "age");
                                         ("message", JStr "Must be a positive number")]])])]).
Proof.
  intros Hfresh Hbody. unfold example.validationHandler, v1.RespondJSON.
  cbn zeta. unfold Request_Context, WithTraceID, WithValue. cbn [mbind Outcome_bind].
  unfold copyTraceID. rewrite NewAPIResponse_valueCtx_trace. cbn [mbind Outcome_bind].
  run_on_recorder
    (JObj [("status", JStr "error");
           ("trace_id", JStr "validation-trace-456");
           ("error",
            JObj [("code", JStr "VALIDATION_FAILED");
                  ("message", JStr "Data yang dikirim tidak valid.");
                  ("details",
                   JArr [JObj [("field", JStr "email");
                               ("message", JStr "Must be a valid email address")];
                         JObj [("field", JStr "password");
                               ("message", JStr "Must be at least 8 characters long")];
                         JObj [("field", JStr "age");
                               ("message", JStr "Must be a positive number")]])])]).
Qed.

(** X18. [paginatedHandler], for every request: it answers 200 with the
    three items in order, each with its keys sorted, the trace id, and the
    pagination metadata with all three fields present. *)
Theorem paginatedHandler_recorder (rw : httptest.ResponseRecorder) (r : Request) :
  httptest.wroteHeader rw = false -> httptest.Body rw = [] ->
  exists rw',
    example.paginatedHandler (RW := httptest.recorder_ResponseWriter detect) rw r
    = Done (rw', [])
    /\ httptest.Code rw' = 200
    /\ http.Get (httptest.HeaderMap rw') "Content-Type" = "application/json"
    /\ Unmarshal (httptest.Body rw')
       = Some (JObj [("status", JStr "success");
                     ("trace_id", JStr "pagination-trace-789");
                     ("data",
                      JArr [JObj [("description", JStr "First item"); ("id", JNum 1);
                                  ("name", JStr "Item 1")];
                            JObj [("description", JStr "Second item"); ("id", JNum 2);
                                  ("name", JStr "Item 2")];
                            JObj [("description", JStr "Third item"); ("id", JNum 3);
                                  ("name", JStr "Item 3")]]);
                     ("meta", JObj [("page", JNum 1); ("per_page", JNum 10);
                                    ("total_items", JNum 25)])]).
Proof.
  intros Hfresh Hbody. unfold example.paginatedHandler, v1.RespondJSON.
  cbn zeta. unfold Request_Context, WithTraceID, WithValue. cbn [mbind Outcome_bind].
  unfold copyTraceID. rewrite NewAPIResponse_valueCtx_trace. cbn [mbind Outcome_bind].
  run_on_recorder
    (JObj [("status", JStr "success");
           ("trace_id", JStr "pagination-trace-789");
           ("data",
            JArr [JObj [("description", JStr "First item"); ("id", JNum 1);
                        ("name", JStr "Item 1")];
                  JObj [("description", JStr "Second item"); ("id", JNum 2);
                        ("name", JStr "Item 2")];
                  JObj [("description", JStr "Third item"); ("id", JNum 3);
                        ("name", JStr "Item 3")]]);
           ("meta", JObj [("page", JNum 1); ("per_page", JNum 10);
                          ("total_items", JNum 25)])]).
Qed.

End HandlersOnRecorder.

Lemma successHandler_recorder_witness :
  exists rw',
    example.successHandler (RW := httptest.recorder_ResponseWriter (fun _ => "text/plain"))
      httptest.NewRecorder
      {| Request_ctx := valueCtx emptyCtx traceIDKey (VString "upstream");
         Request_Header := ∅ |}
    = Done (rw', [])
    /\ httptest.Code rw' = 200
    /\ http.Get (httptest.HeaderMap rw') "Content-Type" = "application/json"
    /\ Unmarshal (httptest.Body rw')
       = Some (JObj [("status", JStr "success");
                     ("trace_id", JStr "trace-123");
                     ("data", JObj [("message", JStr "Operation successful");
                                    ("user", JObj [("id", JStr "123");
                                                   ("name", JStr "John Doe")])])]).
Proof.
  apply (successHandler_recorder (fun _ => "text/plain") httptest.NewRecorder
           {| Request_ctx := valueCtx emptyCtx traceIDKey (VString "upstream");
              Request_Header := ∅ |}); reflexivity.
Defined.

Lemma errorHandler_recorder_witness :
  exists rw',
    example.errorHandler (RW := httptest.recorder_ResponseWriter (fun _ => "text/plain"))
      httptest.NewRecorder
      {| Request_ctx := emptyCtx; Request_Header := {[ "X-Trace-Id" := ["abc"] ]} |}
    = Done (rw', [])
    /\ httptest.Code rw' = 200
    /\ http.Get (httptest.HeaderMap rw') "Content-Type" = "application/json"
    /\ Unmarshal (httptest.Body rw')
       = Some (JObj [("status", JStr "success");
                     ("data", JObj [("status", JStr "ok")])]).
Proof.
  apply (errorHandler_recorder (fun _ => "text/plain") httptest.NewRecorder
           {| Request_ctx := emptyCtx; Request_Header := {[ "X-Trace-Id" := ["abc"] ]} |});
    reflexivity.
Defined.

Lemma errorHandler_error_path_witness :
  exists rw',
    example.errorHandlerOn (RW := httptest.recorder_ResponseWriter (fun _ => "text/plain"))
      (Some (errorString "connection refused")) httptest.NewRecorder
      {| Request_ctx := emptyCtx; Request_Header := {[ "X-Trace-Id" := ["abc"] ]} |}
    = Done (rw', [])
    /\ httptest.Code rw' = 500
    /\ http.Get (httptest.HeaderMap rw') "Content-Type" = "application/json"
    /\ Unmarshal (httptest.Body rw')
       = Some (JObj ([("status", JStr "error")]
                     ++ (if decide (http.Get
                                      (Request_Header
                                         {| Request_ctx := emptyCtx;
                                            Request_Header := {[ "X-Trace-Id" := ["abc"] ]} |})
                                      "X-Trace-Id" = "")
                         then []
                         else [("trace_id",
                                JStr (http.Get
                                        (Request_Header
                                           {| Request_ctx := emptyCtx;
                                              Request_Header :=
                                                {[ "X-Trace-Id" := ["abc"] ]} |})
                                        "X-Trace-Id"))])
                     ++ [("error", JObj [("code", JStr "INTERNAL_ERROR");
                                         ("message", JStr "Database connection failed")])])).
Proof.
  apply (errorHandler_error_path (fun _ => "text/plain") httptest.NewRecorder
           {| Request_ctx := emptyCtx; Request_Header := {[ "X-Trace-Id" := ["abc"] ]} |}
           (errorString "connection refused")); reflexivity.
Defined.

Lemma validationHandler_recorder_witness :
  exists rw',
    example.validationHandler (RW := httptest.recorder_ResponseWriter (fun _ => "text/plain"))
      httptest.NewRecorder {| Request_ctx := emptyCtx; Request_Header := ∅ |}
    = Done (rw', [])
    /\ httptest.Code rw' = 422
    /\ http.Get (httptest.HeaderMap rw') "Content-Type" = "application/json"
    /\ Unmarshal (httptest.Body rw')
       = Some (JObj [("status", JStr "error");
                     ("trace_id", JStr "validation-trace-456");
                     ("error",
                      JObj [("code", JStr "VALIDATION_FAILED");
                            ("message", JStr "Data yang dikirim tidak valid.");
                            ("details",
                             JArr [JObj [("field", JStr "email");
                                         ("message", JStr "Must be a valid email address")];
                                   JObj [("field", JStr "password");
                                         ("message",
                                          JStr "Must be at least 8 characters long")];
                                   JObj [("field", JStr "age");
                                         ("message", JStr "Must be a positive number")]])])]).
Proof.
  apply (validationHandler_recorder (fun _ => "text/plain") httptest.NewRecorder
           {| Request_ctx := emptyCtx; Request_Header := ∅ |}); reflexivity.
Defined.

Lemma paginatedHandler_recorder_witness :
  exists rw',
    example.paginatedHandler (RW := httptest.recorder_ResponseWriter (fun _ => "text/plain"))
      httptest.NewRecorder {| Request_ctx := emptyCtx; Request_Header := ∅ |}
    = Done (rw', [])
    /\ httptest.Code rw' = 200
    /\ http.Get (httptest.HeaderMap rw') "Content-Type" = "application/json"
    /\ Unmarshal (httptest.Body rw')
       = Some (JObj [("status", JStr "success");
                     ("trace_id", JStr "pagination-trace-789");
                     ("data",
                      JArr [JObj [("description", JStr "First item"); ("id", JNum 1);
                                  ("name", JStr "Item 1")];
                            JObj [("description", JStr "Second item"); ("id", JNum 2);
                                  ("name", JStr "Item 2")];
                            JObj [("description", JStr "Third item"); ("id", JNum 3);
                                  ("name", JStr "Item 3")]]);
                     ("meta", JObj [("page", JNum 1); ("per_page", JNum 10);
                                    ("total_items", JNum 25)])]).
Proof.
  apply (paginatedHandler_recorder (fun _ => "text/plain") httptest.NewRecorder
           {| Request_ctx := emptyCtx; Request_Header := ∅ |}); reflexivity.
Defined.
